(** * SaganBot (lib/saganbot.js): a shallow embedding and its properties

    The bot is a thin layer over two services: the Slack client it inherits
    from (slackbots) and an SQLite database (sqlite3).  Every method of
    [SaganBot.prototype] is a definition of module [SaganBot] below, under the
    name it has in the source.  The JavaScript operations the methods use are
    in module [JS]; the two services are in modules [Sqlite] and [Slack].

    Conventions of the model.
    - A JavaScript string is its sequence of code units; the model covers
      code units below 256, one [ascii] each.
    - An exception or a call of [process.exit] ends the handler that runs;
      both are outcomes of the monad [M].
    - A callback given to the database runs when the database answers; the
      model runs it at the place of the call, on the answer of the store. *)

From Stdlib Require Import String Ascii List ZArith Lia Bool.
Import ListNotations.
Local Open Scope string_scope.
Local Open Scope Z_scope.

(* ===================================================================== *)
(** ** JavaScript values and the string operations of the source *)

Module JS.

(** The result of [+s] on a string.  [+s] is NaN exactly when [s] is not a
    StringNumericLiteral; otherwise it is the Number the literal denotes.
    The model keeps the literal (white space stripped) and does not round
    it to binary64: the bot only hands the Number to the database. *)
Inductive number : Type :=
| NaN
| Numeric (literal : string).

(** The values read from an event of the transport and handed to it: a
    field is a string when the event carries it, [undefined] when it does
    not; null and the booleans are kept beside them.  Numbers, objects and
    arrays in a field are outside the model: a statement about a text is
    about a text that is one of these values. *)
Inductive value : Type :=
| VUndefined
| VNull
| VBool (b : bool)
| VString (s : string).

(** [typeof v === 'string'] *)
Definition is_string (v : value) : bool :=
  match v with VString _ => true | _ => false end.

(** [Boolean(v)] *)
Definition Boolean (v : value) : bool :=
  match v with
  | VUndefined | VNull => false
  | VBool b => b
  | VString s => negb (String.eqb s "")
  end.

(** [a === b] *)
Definition strict_eq (a b : value) : bool :=
  match a, b with
  | VUndefined, VUndefined => true
  | VNull, VNull => true
  | VBool x, VBool y => Bool.eqb x y
  | VString x, VString y => String.eqb x y
  | _, _ => false
  end.

(** [s[0]]: the first code unit as a string, [undefined] on the empty string *)
Definition char_at_0 (s : string) : value :=
  match s with
  | EmptyString => VUndefined
  | String c _ => VString (String c EmptyString)
  end.

(** *** toLowerCase *)

Definition lower_char (c : ascii) : ascii :=
  let n := Z.of_nat (nat_of_ascii c) in
  if ((65 <=? n) && (n <=? 90))
     || ((192 <=? n) && (n <=? 222) && negb (n =? 215))
  then ascii_of_nat (Z.to_nat (n + 32))
  else c.

Fixpoint toLowerCase (s : string) : string :=
  match s with
  | EmptyString => EmptyString
  | String c s' => String (lower_char c) (toLowerCase s')
  end.

(** *** indexOf *)

(** [indexOf_from i pat s]: [i] plus the first position of [pat] in [s],
    or -1. *)
Fixpoint indexOf_from (i : Z) (pat s : string) : Z :=
  if String.prefix pat s then i
  else match s with
       | EmptyString => -1
       | String _ s' => indexOf_from (i + 1) pat s'
       end.

(** [s.indexOf(pat)] *)
Definition indexOf (s pat : string) : Z := indexOf_from 0 pat s.

(** *** slice *)

Fixpoint drop (n : nat) (s : string) : string :=
  match n, s with
  | O, _ => s
  | S _, EmptyString => EmptyString
  | S n', String _ s' => drop n' s'
  end.

Fixpoint take (n : nat) (s : string) : string :=
  match n, s with
  | O, _ => EmptyString
  | S _, EmptyString => EmptyString
  | S n', String c s' => String c (take n' s')
  end.

Definition jslength (s : string) : Z := Z.of_nat (String.length s).

(** A relative index of [slice]: counted from the end when negative,
    clamped to the string. *)
Definition clamp_index (len k : Z) : Z :=
  if k <? 0 then Z.max (len + k) 0 else Z.min k len.

(** [s.slice(start, stop)] *)
Definition slice (s : string) (start stop : Z) : string :=
  let len := jslength s in
  let from := clamp_index len start in
  let to := clamp_index len stop in
  take (Z.to_nat (Z.max (to - from) 0)) (drop (Z.to_nat from) s).

(** *** Unary plus on a string (ToNumber) *)

Definition code (c : ascii) : Z := Z.of_nat (nat_of_ascii c).

(** StrWhiteSpaceChar below 256: TAB, LF, VT, FF, CR, SP, NBSP *)
Definition is_space (c : ascii) : bool :=
  let n := code c in
  ((9 <=? n) && (n <=? 13)) || (n =? 32) || (n =? 160).

Definition is_digit (c : ascii) : bool :=
  let n := code c in (48 <=? n) && (n <=? 57).

Definition is_hex_digit (c : ascii) : bool :=
  let n := code c in
  is_digit c || ((65 <=? n) && (n <=? 70)) || ((97 <=? n) && (n <=? 102)).

Definition is_octal_digit (c : ascii) : bool :=
  let n := code c in (48 <=? n) && (n <=? 55).

Definition is_binary_digit (c : ascii) : bool :=
  let n := code c in (48 <=? n) && (n <=? 49).

Definition is_sign (c : ascii) : bool :=
  let n := code c in (n =? 43) || (n =? 45).

Fixpoint drop_spaces (l : list ascii) : list ascii :=
  match l with
  | c :: l' => if is_space c then drop_spaces l' else l
  | [] => []
  end.

Definition trim (l : list ascii) : list ascii :=
  rev (drop_spaces (rev (drop_spaces l))).

Fixpoint skip_digits (l : list ascii) : list ascii :=
  match l with
  | c :: l' => if is_digit c then skip_digits l' else l
  | [] => []
  end.

Definition nonempty_all (p : ascii -> bool) (l : list ascii) : bool :=
  match l with [] => false | _ => forallb p l end.

Definition starts_with_digit (l : list ascii) : bool :=
  match l with c :: _ => is_digit c | [] => false end.

(** What may follow the digits: nothing, or an ExponentPart *)
Definition exponent_or_end (l : list ascii) : bool :=
  match l with
  | [] => true
  | e :: l' =>
      ((code e =? 101) || (code e =? 69)) &&
      match l' with
      | c :: l'' => if is_sign c then nonempty_all is_digit l''
                    else nonempty_all is_digit l'
      | [] => false
      end
  end.

(** StrUnsignedDecimalLiteral *)
Definition is_unsigned_decimal (l : list ascii) : bool :=
  if String.eqb (string_of_list_ascii l) "Infinity" then true
  else
    let after_int := skip_digits l in
    match after_int with
    | dot :: l' =>
        if code dot =? 46
        then (starts_with_digit l || starts_with_digit l')
             && exponent_or_end (skip_digits l')
        else starts_with_digit l && exponent_or_end after_int
    | [] => starts_with_digit l
    end.

(** StrNumericLiteral: a signed decimal literal, or an unsigned binary,
    octal or hexadecimal integer literal *)
Definition is_numeric_literal (l : list ascii) : bool :=
  match l with
  | [] => true
  | z :: x :: l' =>
      if (code z =? 48) && ((code x =? 120) || (code x =? 88))
      then nonempty_all is_hex_digit l'
      else if (code z =? 48) && ((code x =? 111) || (code x =? 79))
      then nonempty_all is_octal_digit l'
      else if (code z =? 48) && ((code x =? 98) || (code x =? 66))
      then nonempty_all is_binary_digit l'
      else if is_sign z then is_unsigned_decimal (x :: l')
      else is_unsigned_decimal l
  | [c] => is_digit c
  end.

(** [+s] *)
Definition unary_plus (s : string) : number :=
  let l := trim (list_ascii_of_string s) in
  if is_numeric_literal l then Numeric (string_of_list_ascii l) else NaN.

(** *** Exceptions *)

Inductive exn : Type :=
| TypeError (what : string)
| UnhandledError (what : string).

(** How a piece of code ends: with a value, with an exception, or with
    [process.exit(code)]. *)
Inductive outcome (A : Type) : Type :=
| Normal (a : A)
| Throw (e : exn)
| Exit (code : Z).
Arguments Normal {A} a.
Arguments Throw {A} e.
Arguments Exit {A} code.

(** [v.toLowerCase()]: only a string has the method *)
Definition call_toLowerCase (v : value) : outcome string :=
  match v with
  | VString s => Normal (toLowerCase s)
  | VBool _ => Throw (TypeError "toLowerCase is not a function")
  | VUndefined | VNull =>
      Throw (TypeError "Cannot read property 'toLowerCase'")
  end.

(** [v.slice(start, v.length)]: only a string has the method *)
Definition call_slice_to_length (v : value) (start : Z) : outcome string :=
  match v with
  | VString s => Normal (slice s start (jslength s))
  | VBool _ => Throw (TypeError "slice is not a function")
  | VUndefined | VNull => Throw (TypeError "Cannot read property 'slice'")
  end.

End JS.

(* ===================================================================== *)
(** ** The glossary store (sqlite3) *)

Module Sqlite.

Record glossary_row : Type :=
  { TERM : string; DESCRIPTION : string; PREREQS : string }.

Record info_row : Type := { NAME : string; VAL : string }.

(** The content of the database file: the two tables the bot reads. *)
Record database : Type :=
  { GLOSSARY : list glossary_row; INFO : list info_row }.

(** A value bound to the [?] of a statement. *)
Inductive param : Type :=
| ParamNumber (n : JS.number)
| ParamString (s : string).

Inductive sqlval : Type :=
| SqlNull
| SqlNumber (literal : string)
| SqlText (s : string).

(** Binding: a string is bound as TEXT, a Number as a number; SQLite stores
    NaN as NULL. *)
Definition bind (p : param) : sqlval :=
  match p with
  | ParamString s => SqlText s
  | ParamNumber JS.NaN => SqlNull
  | ParamNumber (JS.Numeric l) => SqlNumber l
  end.

(** [TERM = ?] for a stored text: NULL is equal to nothing, and a number
    and a text are of different storage classes.  The schema of GLOSSARY is
    not part of the sources; TERM is taken without a type affinity, so the
    bound number is compared as it is. *)
Definition term_equals (term : string) (v : sqlval) : bool :=
  match v with
  | SqlText s => String.eqb term s
  | SqlNull | SqlNumber _ => false
  end.

(** A row of [SELECT DESCRIPTION,PREREQS]. *)
Record description_row : Type :=
  { row_DESCRIPTION : string; row_PREREQS : string }.

Definition sql_select_glossary : string :=
  "SELECT DESCRIPTION,PREREQS FROM GLOSSARY WHERE TERM =?".

Definition select_glossary (d : database) (p : param) : list description_row :=
  map (fun r => {| row_DESCRIPTION := DESCRIPTION r;
                   row_PREREQS := PREREQS r |})
      (filter (fun r => term_equals (TERM r) (bind p)) (GLOSSARY d)).

Definition dquote : string := String "034"%char EmptyString.

Definition lastrun_literal : string := dquote ++ "lastrun" ++ dquote.

Definition sql_select_lastrun : string :=
  "SELECT VAL FROM INFO WHERE NAME = " ++ lastrun_literal ++ " LIMIT 1".

Definition sql_insert_lastrun : string :=
  "INSERT INTO INFO VALUES(" ++ lastrun_literal ++ ", ?)".

Definition sql_update_lastrun : string :=
  "UPDATE INFO SET VAL= ? WHERE NAME = " ++ lastrun_literal.

Definition is_lastrun (r : info_row) : bool := String.eqb (NAME r) "lastrun".

(** The first row named lastrun, if any. *)
Definition select_lastrun (d : database) : option info_row :=
  List.find is_lastrun (INFO d).

Definition insert_lastrun (d : database) (val : string) : database :=
  {| GLOSSARY := GLOSSARY d;
     INFO := INFO d ++ [{| NAME := "lastrun"; VAL := val |}] |}.

Definition update_lastrun (d : database) (val : string) : database :=
  {| GLOSSARY := GLOSSARY d;
     INFO := map (fun r => if is_lastrun r
                           then {| NAME := NAME r; VAL := val |} else r)
                 (INFO d) |}.

(** [record.DESCRIPTION] where [record] is the Array of rows that [db.all]
    gives to its callback.  DESCRIPTION is a property of the rows, not of
    the Array that holds them: the read gives [undefined] for every Array. *)
Definition Array_DESCRIPTION (record : list description_row) : JS.value :=
  JS.VUndefined.

End Sqlite.

(* ===================================================================== *)
(** ** The transport (slackbots) *)

Module User.
Record t : Type := { id : string; name : string }.
End User.

Module Channel.
Record t : Type := { id : string; name : string }.
End Channel.

(** An event of the real time messaging API; a field that the event does
    not carry reads as [undefined]. *)
Module Message.
Record t : Type :=
  { type : JS.value; text : JS.value; user : JS.value; channel : JS.value }.
End Message.

Module Slack.

(** A call of [postMessageToChannel(name, text, {as_user: as_user})]. *)
Record post : Type :=
  { to : string; body : JS.value; as_user : bool }.

End Slack.

(* ===================================================================== *)
(** ** The bot *)

Module SaganBot.
Import JS.

(** *** The world the bot acts on *)

(** The statements the bot prepares, with the value bound to their [?]. *)
Inductive statement : Type :=
| SelectGlossary (p : Sqlite.param)
| SelectLastrun
| InsertLastrun (val : string)
| UpdateLastrun (val : string).

Definition sql (st : statement) : string :=
  match st with
  | SelectGlossary _ => Sqlite.sql_select_glossary
  | SelectLastrun => Sqlite.sql_select_lastrun
  | InsertLastrun _ => Sqlite.sql_insert_lastrun
  | UpdateLastrun _ => Sqlite.sql_update_lastrun
  end.

Record world : Type := mkWorld
  { files : list string;               (* the paths that exist *)
    store : Sqlite.database;           (* the database at the bot's dbPath *)
    faults : list (option string);     (* per coming statement: its error *)
    clock : string;                    (* what (new Date()).toJSON() reads *)
    issued : list statement;           (* the statements sent to the store *)
    outbox : list Slack.post;          (* the posts handed to the transport *)
    stderr : list (list string) }.     (* the calls of console.error *)

(** *** Effects *)

Definition M (A : Type) : Type := world -> outcome A * world.

Definition ret {A} (a : A) : M A := fun w => (Normal a, w).

Definition bind {A B} (c : M A) (k : A -> M B) : M B :=
  fun w =>
    match c w with
    | (Normal a, w') => k a w'
    | (Throw e, w') => (Throw e, w')
    | (Exit n, w') => (Exit n, w')
    end.

Notation "x <- c ;; k" := (bind c (fun x => k))
  (at level 61, c at next level, right associativity).
Notation "c ;;; k" := (bind c (fun _ => k))
  (at level 61, right associativity).

Definition lift {A} (o : outcome A) : M A := fun w => (o, w).

Definition throw {A} (e : exn) : M A := lift (Throw e).

(** [process.exit(code)] *)
Definition process_exit {A} (code : Z) : M A := lift (Exit code).

(** [console.error(args...)] *)
Definition console_error (args : list string) : M unit :=
  fun w =>
    (Normal tt,
     mkWorld (files w) (store w) (faults w) (clock w) (issued w) (outbox w)
             (stderr w ++ [args])).

(** [fs.existsSync(path)] *)
Definition existsSync (path : string) : M bool :=
  fun w => (Normal (existsb (String.eqb path) (files w)), w).

(** [(new Date()).toJSON()] *)
Definition Date_toJSON : M string := fun w => (Normal (clock w), w).

(** [this.postMessageToChannel(name, text, {as_user: as_user})] *)
Definition postMessageToChannel (name : string) (text : value)
    (as_user : bool) : M unit :=
  fun w =>
    (Normal tt,
     mkWorld (files w) (store w) (faults w) (clock w) (issued w)
             (outbox w ++ [{| Slack.to := name; Slack.body := text;
                              Slack.as_user := as_user |}])
             (stderr w)).

(** Sending a statement: it is recorded, and the store answers with the
    error that [faults] holds for it, if any. *)
Definition send (st : statement) : M (option string) :=
  fun w =>
    (Normal (match faults w with e :: _ => e | [] => None end),
     mkWorld (files w) (store w) (tl (faults w)) (clock w)
             (issued w ++ [st]) (outbox w) (stderr w)).

Definition read_store : M Sqlite.database := fun w => (Normal (store w), w).

Definition write_store (d : Sqlite.database) : M unit :=
  fun w =>
    (Normal tt,
     mkWorld (files w) d (faults w) (clock w) (issued w) (outbox w)
             (stderr w)).

(** [db.all(sql, param, callback)] for the glossary query: the callback gets
    the error, or the Array of all rows of the result. *)
Definition db_all (p : Sqlite.param)
    (callback : option string -> list Sqlite.description_row -> M unit)
    : M unit :=
  err <- send (SelectGlossary p) ;;
  match err with
  | Some e => callback (Some e) []
  | None => d <- read_store ;; callback None (Sqlite.select_glossary d p)
  end.

(** [db.get(sql, callback)] for the lastrun query: the callback gets the
    error, or the first row of the result, [undefined] when there is none. *)
Definition db_get
    (callback : option string -> option Sqlite.info_row -> M unit) : M unit :=
  err <- send SelectLastrun ;;
  match err with
  | Some e => callback (Some e) None
  | None => d <- read_store ;; callback None (Sqlite.select_lastrun d)
  end.

(** [db.run(sql, param)] without a callback: an error is emitted as an
    'error' event, which nothing listens to. *)
Definition db_run (st : statement) : M unit :=
  err <- send st ;;
  match err with
  | Some e => throw (UnhandledError e)
  | None =>
      d <- read_store ;;
      match st with
      | InsertLastrun val => write_store (Sqlite.insert_lastrun d val)
      | UpdateLastrun val => write_store (Sqlite.update_lastrun d val)
      | SelectGlossary _ | SelectLastrun => ret tt
      end
  end.

(** *** The object *)

Record settings : Type :=
  { token : string;
    settings_name : option string;
    settings_dbPath : option string }.

Record bot : Type := mkBot
  { name : string;
    dbPath : string;
    user : option User.t;              (* null or undefined: [None] *)
    db : option string;                (* the handle: the path it opened *)
    users : list User.t;               (* the roster, set at login *)
    channels : list Channel.t }.

(** [a || b] on an optional string: an absent or empty [a] is falsy *)
Definition or_default (a : option string) (b : string) : string :=
  match a with
  | Some s => if String.eqb s "" then b else s
  | None => b
  end.

(** The constructor; [default_dbPath] is
    [path.resolve(__dirname, '..', 'data', 'vra.db')], and the roster is the
    one the transport holds once it has logged in. *)
Definition Constructor (default_dbPath : string) (s : settings)
    (roster_users : list User.t) (roster_channels : list Channel.t) : bot :=
  {| name := or_default (settings_name s) "saganbot";
     dbPath := or_default (settings_dbPath s) default_dbPath;
     user := None;
     db := None;
     users := roster_users;
     channels := roster_channels |}.

(** *** The methods *)

Definition _isChatMessage (message : Message.t) : bool :=
  strict_eq (Message.type message) (VString "message")
  && Boolean (Message.text message).

Definition _isChannelConversation (message : Message.t) : bool :=
  match Message.channel message with
  | VString s => strict_eq (char_at_0 s) (VString "C")
  | _ => false
  end.

Definition _isMentioningvRA (this : bot) (message : Message.t)
    : outcome bool :=
  match call_toLowerCase (Message.text message) with
  | Normal lower =>
      if indexOf lower "vra" >? -1 then Normal true
      else match call_toLowerCase (Message.text message) with
           | Normal lower' => Normal (indexOf lower' (name this) >? -1)
           | Throw e => Throw e
           | Exit n => Exit n
           end
  | Throw e => Throw e
  | Exit n => Exit n
  end.

Definition _isFromSaganBot (this : bot) (message : Message.t)
    : outcome bool :=
  match user this with
  | Some u => Normal (strict_eq (Message.user message) (VString (User.id u)))
  | None => Throw (TypeError "Cannot read property 'id' of undefined")
  end.

Definition _getChannelById (this : bot) (channelId : value)
    : option Channel.t :=
  hd_error
    (filter (fun item => strict_eq (VString (Channel.id item)) channelId)
            (channels this)).

Definition _loadBotUser (this : bot) : bot :=
  mkBot (name this) (dbPath this)
        (hd_error
           (filter (fun u => String.eqb (User.name u) (name this))
                   (users this)))
        (db this) (users this) (channels this).

Definition missing_database (path : string) : string :=
  "Database path " ++ Sqlite.dquote ++ path ++ Sqlite.dquote
  ++ " does not exists or it's not readable.".

Definition _connectDb (this : bot) : M bot :=
  found <- existsSync (dbPath this) ;;
  (if negb found
   then console_error [missing_database (dbPath this)] ;;; process_exit 1
   else ret tt) ;;;
  ret (mkBot (name this) (dbPath this) (user this) (Some (dbPath this))
             (users this) (channels this)).

Definition newline : string := String "010"%char EmptyString.

Definition welcome : string :=
  "Hello there!" ++ newline ++
  " vRA can be a bummer for a first-time user. Just type a vRA-specific term you wish to invoke my glossary!".

Definition _welcomeMessage (this : bot) : M unit :=
  match channels this with
  | c :: _ => postMessageToChannel (Channel.name c) (VString welcome) true
  | [] => throw (TypeError "Cannot read property 'name' of undefined")
  end.

Definition _firstRunCheck (this : bot) : M unit :=
  match db this with
  | None => throw (TypeError "Cannot read property 'get' of null")
  | Some _ =>
      db_get (fun err record =>
        match err with
        | Some e => console_error ["DATABASE ERROR:"; e]
        | None =>
            currentTime <- Date_toJSON ;;
            match record with
            | None =>
                _welcomeMessage this ;;;
                db_run (InsertLastrun currentTime)
            | Some _ => db_run (UpdateLastrun currentTime)
            end
        end)
  end.

Definition _replyWithDescription (this : bot) (originalMessage : Message.t)
    : M unit :=
  queryMessage <- lift (call_slice_to_length (Message.text originalMessage) 4) ;;
  match db this with
  | None => throw (TypeError "Cannot read property 'all' of null")
  | Some _ =>
      db_all (Sqlite.ParamNumber (unary_plus queryMessage))
        (fun err record =>
           match err with
           | Some e => console_error ["DATABASE ERROR:"; e]
           | None =>
               match _getChannelById this (Message.channel originalMessage) with
               | Some channel =>
                   postMessageToChannel (Channel.name channel)
                     (Sqlite.Array_DESCRIPTION record) true
               | None =>
                   throw (TypeError "Cannot read property 'name' of undefined")
               end
           end)
  end.

Definition _onMessage (this : bot) (message : Message.t) : M unit :=
  if _isChatMessage message && _isChannelConversation message
  then
    fromBot <- lift (_isFromSaganBot this message) ;;
    if negb fromBot
    then
      mentions <- lift (_isMentioningvRA this message) ;;
      if mentions then _replyWithDescription this message else ret tt
    else ret tt
  else ret tt.

Definition _onStart (this : bot) : M bot :=
  let this := _loadBotUser this in
  this <- _connectDb this ;;
  _firstRunCheck this ;;;
  ret this.

(** The events of a run, served one after the other; an exception or an
    exit ends the process. *)
Fixpoint serve (this : bot) (events : list Message.t) : M unit :=
  match events with
  | [] => ret tt
  | message :: rest => _onMessage this message ;;; serve this rest
  end.

(** [run]: the transport logs in, emits 'start' once, and then 'message'
    for each event it receives; [run] registers [_onStart] and [_onMessage]
    for the two. *)
Definition run (this : bot) (events : list Message.t) : M unit :=
  this <- _onStart this ;;
  serve this events.

End SaganBot.

(* ===================================================================== *)
(** ** Notions of the specification and a concrete deployment *)

(** [contains s pat]: [pat] occurs in [s] as a substring. *)
Definition contains (s pat : string) : Prop :=
  exists pre post, s = pre ++ pat ++ post.

(** The store holds a record named lastrun. *)
Definition has_lastrun (d : Sqlite.database) : Prop :=
  exists r, In r (Sqlite.INFO d) /\ Sqlite.NAME r = "lastrun".

(** The store answers every coming statement without an error. *)
Definition store_sound (w : SaganBot.world) : Prop :=
  Forall (fun e => e = None) (SaganBot.faults w).

(** [grows_by n w w']: from [w] to [w'] the files, the store and the clock
    are the same; at most [n] statements were sent, and each post or line of
    the log answers one statement; nothing that was in [w] is taken back. *)
Definition grows_by (n : nat) (w w' : SaganBot.world) : Prop :=
  SaganBot.files w' = SaganBot.files w /\
  SaganBot.store w' = SaganBot.store w /\
  SaganBot.clock w' = SaganBot.clock w /\
  exists st ps ls,
    SaganBot.issued w' = (SaganBot.issued w ++ st)%list /\
    SaganBot.outbox w' = (SaganBot.outbox w ++ ps)%list /\
    SaganBot.stderr w' = (SaganBot.stderr w ++ ls)%list /\
    (List.length st <= n)%nat /\
    (List.length ps + List.length ls <= List.length st)%nat.

(** A letter of the Latin alphabet. *)
Definition is_letter (c : ascii) : bool :=
  let n := JS.code c in
  ((65 <=? n) && (n <=? 90)) || ((97 <=? n) && (n <=? 122)).

(** A word: letters only, at least one. *)
Definition is_word (s : string) : Prop :=
  s <> "" /\ forallb is_letter (list_ascii_of_string s) = true.

(** The rows of INFO that are not the lastrun record. *)
Definition other_info (d : Sqlite.database) : list Sqlite.info_row :=
  filter (fun r => negb (Sqlite.is_lastrun r)) (Sqlite.INFO d).

Module Scenario.
Import JS SaganBot.

Definition general : Channel.t :=
  {| Channel.id := "C024BE91L"; Channel.name := "general" |}.

Definition random : Channel.t :=
  {| Channel.id := "C024BE7LR"; Channel.name := "random" |}.

Definition saganbot : User.t :=
  {| User.id := "U0BOT0001"; User.name := "saganbot" |}.

Definition alice : User.t :=
  {| User.id := "U0ALICE01"; User.name := "alice" |}.

Definition db_file : string := "/srv/saganbot/data/vra.db".

Definition cloud : Sqlite.glossary_row :=
  {| Sqlite.TERM := "cloud";
     Sqlite.DESCRIPTION := "A pool of compute.";
     Sqlite.PREREQS := "none" |}.

(** The store before the first activation, and after an earlier one. *)
Definition fresh_store : Sqlite.database :=
  {| Sqlite.GLOSSARY := [cloud]; Sqlite.INFO := [] |}.

Definition used_store : Sqlite.database :=
  {| Sqlite.GLOSSARY := [cloud];
     Sqlite.INFO := [{| Sqlite.NAME := "lastrun";
                        Sqlite.VAL := "2016-03-01T09:00:00.000Z" |}] |}.

Definition world_of (paths : list string) (d : Sqlite.database)
    (errors : list (option string)) : world :=
  mkWorld paths d errors "2016-03-02T08:30:00.000Z" [] [] [].

Definition fresh_world : world := world_of [db_file] fresh_store [].
Definition used_world : world := world_of [db_file] used_store [].

Definition default_settings : settings :=
  {| token := "xoxb-0000"; settings_name := None; settings_dbPath := None |}.

(** The bot as constructed, with the roster of its team. *)
Definition constructed : bot :=
  Constructor db_file default_settings [alice; saganbot] [general; random].

(** The bot once [_onStart] has run. *)
Definition started : bot :=
  mkBot "saganbot" db_file (Some saganbot) (Some db_file)
        [alice; saganbot] [general; random].

(** The same team without an account named like the bot. *)
Definition nameless : bot :=
  mkBot "saganbot" db_file None (Some db_file) [alice] [general; random].

(** The bot as constructed in a team without an account of its name. *)
Definition stranger : bot :=
  Constructor db_file default_settings [alice] [general; random].

(** A bot configured with a capitalised name, in a team whose account of
    the bot has that name: as constructed, and once [_onStart] has run. *)
Definition SaganBot_account : User.t :=
  {| User.id := "U0BOT0001"; User.name := "SaganBot" |}.

Definition capitalised_settings : settings :=
  {| token := "xoxb-0000"; settings_name := Some "SaganBot";
     settings_dbPath := None |}.

Definition capitalised_constructed : bot :=
  Constructor db_file capitalised_settings [alice; SaganBot_account]
    [general; random].

Definition capitalised : bot :=
  mkBot "SaganBot" db_file (Some SaganBot_account) (Some db_file)
        [alice; SaganBot_account] [general; random].

Definition chat (author channel text : string) : Message.t :=
  {| Message.type := VString "message";
     Message.text := VString text;
     Message.user := VString author;
     Message.channel := VString channel |}.

Definition vra_cloud : Message.t := chat "U0ALICE01" "C024BE91L" "vra cloud".

(** The bot as constructed in a team that has no channel. *)
Definition channelless : bot :=
  Constructor db_file default_settings [alice; saganbot] [].

(** A store that answers its first statement with an error. *)
Definition locked_world : world :=
  world_of [db_file] used_store [Some "SQLITE_BUSY: database is locked"].

(** A store that takes the lastrun query and refuses the insertion. *)
Definition readonly_world : world :=
  world_of [db_file] fresh_store
    [None; Some "SQLITE_READONLY: attempt to write a readonly database"].

End Scenario.

(* ===================================================================== *)
(** ** Properties of the string operations *)

Section StringFacts.
Import JS.

Lemma prefix_spec (pat s : string) :
  String.prefix pat s = true <-> exists post, s = pat ++ post.
Proof.
  revert s. induction pat as [|a pat IH]; intros s; simpl.
  - split; [intros _; exists s; reflexivity | destruct s; reflexivity].
  - destruct s as [|b s]; simpl.
    + split; [discriminate | intros [post H]; discriminate].
    + destruct (Ascii.ascii_dec a b) as [->|Hab].
      * split.
        -- intros H. apply IH in H. destruct H as [post H].
           exists post. now rewrite H.
        -- intros [post H]. apply IH. exists post. now injection H.
      * split; [discriminate | intros [post H]; injection H; congruence].
Qed.

Lemma indexOf_from_range (i : Z) (pat s : string) :
  indexOf_from i pat s = -1 \/ i <= indexOf_from i pat s.
Proof.
  revert i. induction s as [|c s IH]; intros i; cbn [indexOf_from].
  - destruct (String.prefix pat ""); [right; lia | now left].
  - destruct (String.prefix pat (String c s)); [right; lia|].
    destruct (IH (i + 1)) as [H|H]; [now left | right; lia].
Qed.

Lemma indexOf_from_found (i : Z) (pat s : string) :
  0 <= i -> ((indexOf_from i pat s >? -1) = true <-> contains s pat).
Proof.
  revert i. induction s as [|c s IH]; intros i Hi; cbn [indexOf_from].
  - destruct (String.prefix pat "") eqn:Hp.
    + split; [intros _ | intros _; apply Z.gtb_lt; lia].
      apply prefix_spec in Hp. destruct Hp as [post Hp].
      exists "", post. exact Hp.
    + split; [discriminate|].
      intros (pre & post & H). exfalso.
      destruct pre; [|discriminate]. simpl in H.
      assert (String.prefix pat "" = true)
        by (apply prefix_spec; now exists post).
      congruence.
  - destruct (String.prefix pat (String c s)) eqn:Hp.
    + split; [intros _ | intros _; apply Z.gtb_lt; lia].
      apply prefix_spec in Hp. destruct Hp as [post Hp].
      exists "", post. exact Hp.
    + rewrite (IH (i + 1)) by lia. split.
      * intros (pre & post & H). exists (String c pre), post.
        simpl. now rewrite H.
      * intros (pre & post & H). destruct pre as [|c' pre].
        -- exfalso. simpl in H.
           assert (String.prefix pat (String c s) = true)
             by (apply prefix_spec; now exists post).
           congruence.
        -- simpl in H. injection H as _ H. now exists pre, post.
Qed.

(** [s.indexOf(pat) > -1] says that [pat] occurs in [s]. *)
Lemma indexOf_contains (s pat : string) :
  (indexOf s pat >? -1) = true <-> contains s pat.
Proof. unfold indexOf. apply indexOf_from_found. lia. Qed.

Lemma lower_char_idempotent (c : ascii) :
  lower_char (lower_char c) = lower_char c.
Proof.
  destruct c as [b0 b1 b2 b3 b4 b5 b6 b7].
  destruct b0, b1, b2, b3, b4, b5, b6, b7; vm_compute; reflexivity.
Qed.

Lemma toLowerCase_idempotent (s : string) :
  toLowerCase (toLowerCase s) = toLowerCase s.
Proof.
  induction s as [|c s IH]; simpl; [reflexivity|].
  now rewrite lower_char_idempotent, IH.
Qed.

Lemma toLowerCase_app (a b : string) :
  toLowerCase (a ++ b) = toLowerCase a ++ toLowerCase b.
Proof. induction a as [|c a IH]; simpl; [reflexivity | now rewrite IH]. Qed.

Lemma toLowerCase_length (s : string) :
  String.length (toLowerCase s) = String.length s.
Proof. induction s as [|c s IH]; simpl; [reflexivity | now rewrite IH]. Qed.

Lemma append_same_length_inj (a a' b b' : string) :
  String.length a = String.length a' ->
  a ++ b = a' ++ b' -> a = a' /\ b = b'.
Proof.
  revert a'. induction a as [|c a IH]; intros [|c' a'] Hl H;
    simpl in *; try discriminate.
  - now split.
  - injection H as -> H. injection Hl as Hl.
    destruct (IH a' Hl H) as [-> ->]. now split.
Qed.

(** Whatever occurs in a lowercase text is lowercase itself. *)
Lemma contains_lowercase (s pat : string) :
  contains (toLowerCase s) pat -> toLowerCase pat = pat.
Proof.
  intros (pre & post & H).
  pose proof (toLowerCase_idempotent s) as Hid.
  rewrite H in Hid. rewrite !toLowerCase_app in Hid.
  apply append_same_length_inj in Hid; [|apply toLowerCase_length].
  destruct Hid as [_ Hid].
  apply append_same_length_inj in Hid; [|apply toLowerCase_length].
  apply Hid.
Qed.

Lemma drop_length (n : nat) (s : string) :
  String.length (drop n s) = (String.length s - n)%nat.
Proof.
  revert s. induction n as [|n IH]; intros [|c s]; simpl; auto.
Qed.

Lemma take_all (n : nat) (s : string) :
  (String.length s <= n)%nat -> take n s = s.
Proof.
  revert s. induction n as [|n IH]; intros [|c s] H; simpl in *;
    try reflexivity; try lia.
  rewrite IH by lia. reflexivity.
Qed.

Lemma drop_all (n : nat) (s : string) :
  (String.length s <= n)%nat -> drop n s = "".
Proof.
  revert s. induction n as [|n IH]; intros [|c s] H; simpl in *;
    try reflexivity; try lia.
  apply IH. lia.
Qed.

(** [s.slice(4, s.length)] is [s] without its first four code units. *)
Lemma slice_4_length (s : string) : slice s 4 (jslength s) = drop 4 s.
Proof.
  unfold slice, clamp_index, jslength.
  set (n := String.length s).
  destruct (Z.ltb_spec (Z.of_nat n) 0); [lia|].
  change (4 <? 0) with false. cbv iota.
  rewrite Z.min_id.
  destruct (Z.le_gt_cases 4 (Z.of_nat n)) as [Hle|Hgt].
  - rewrite Z.min_l by lia. apply take_all. rewrite drop_length.
    fold n. change (Z.to_nat 4) with 4%nat. lia.
  - rewrite Z.min_r by lia. rewrite Nat2Z.id.
    replace (Z.max (Z.of_nat n - Z.of_nat n) 0) with 0 by lia.
    change (Z.to_nat 0) with 0%nat. cbn [take].
    symmetry. apply drop_all. fold n. lia.
Qed.

End StringFacts.

(* ===================================================================== *)
(** ** Message filtering *)

Section Filtering.
Import JS SaganBot.

Variable this : bot.

Lemma onMessage_not_chat (m : Message.t) (w : world) :
  _isChatMessage m = false -> _onMessage this m w = (Normal tt, w).
Proof. intros H. unfold _onMessage. now rewrite H. Qed.

Lemma onMessage_not_channel (m : Message.t) (w : world) :
  _isChannelConversation m = false -> _onMessage this m w = (Normal tt, w).
Proof.
  intros H. unfold _onMessage. rewrite H, andb_false_r. reflexivity.
Qed.

Lemma onMessage_from_bot (m : Message.t) (w : world) :
  _isFromSaganBot this m = Normal true -> _onMessage this m w = (Normal tt, w).
Proof.
  intros H. unfold _onMessage.
  destruct (_isChatMessage m && _isChannelConversation m); [|reflexivity].
  unfold bind, lift. now rewrite H.
Qed.

(** Without a mention the handler leaves the world as it is; it returns
    unless the identity check raises first. *)
Lemma onMessage_no_mention (m : Message.t) (w : world) :
  _isMentioningvRA this m = Normal false ->
  snd (_onMessage this m w) = w /\
  (user this <> None -> fst (_onMessage this m w) = Normal tt).
Proof.
  intros H. unfold _onMessage.
  destruct (_isChatMessage m && _isChannelConversation m);
    [|split; reflexivity].
  unfold bind, lift, _isFromSaganBot.
  destruct (user this) as [u|]; simpl.
  - destruct (strict_eq (Message.user m) (VString (User.id u))); simpl;
      [split; reflexivity|].
    rewrite H. split; reflexivity.
  - split; [reflexivity | congruence].
Qed.

(** The check of the type and of the text, read on the fields. *)
Lemma isChatMessage_true (m : Message.t) :
  _isChatMessage m = true <->
  Message.type m = VString "message" /\
  exists s, Message.text m = VBool true \/
            (Message.text m = VString s /\ s <> "").
Proof.
  unfold _isChatMessage. rewrite andb_true_iff. split.
  - intros [Ht Hx]. split.
    + destruct (Message.type m) as [| |b|t]; try discriminate Ht.
      simpl in Ht. apply String.eqb_eq in Ht. now rewrite Ht.
    + destruct (Message.text m) as [| |b|t]; try discriminate Hx.
      * exists "". left. simpl in Hx. now rewrite Hx.
      * exists t. right. split; [reflexivity|].
        simpl in Hx. intros ->. discriminate Hx.
  - intros [Ht [s [Hx|[Hx Hs]]]]; rewrite Ht, Hx; simpl; split; try reflexivity.
    destruct (String.eqb_spec s ""); [contradiction | reflexivity].
Qed.

(** The check of the channel, read on the field: only an id that starts
    with C passes. *)
Lemma isChannelConversation_true (m : Message.t) :
  _isChannelConversation m = true <->
  exists rest, Message.channel m = VString (String "C"%char rest).
Proof.
  unfold _isChannelConversation.
  destruct (Message.channel m) as [| |b|s]; try (split; [discriminate|]);
    try (intros [rest H]; discriminate).
  destruct s as [|c s]; cbn [char_at_0 strict_eq].
  - split; [discriminate | intros [rest H]; discriminate].
  - destruct (String.eqb_spec (String c "") "C") as [E|E].
    + injection E as ->. split; [intros _; now exists s | reflexivity].
    + split; [discriminate|]. intros [rest H]. injection H as -> _.
      now elim E.
Qed.

End Filtering.

(** C4: a message whose author id is the id of the resolved bot identity is
    dropped: the handler returns and the world (the posts, the statements
    sent to the store, the log) is as before. *)
Theorem no_reply_to_own_message
    (this : SaganBot.bot) (u : User.t) (m : Message.t) (w : SaganBot.world) :
  SaganBot.user this = Some u ->
  Message.user m = JS.VString (User.id u) ->
  SaganBot._onMessage this m w = (JS.Normal tt, w).
Proof.
  intros Hu Hm. apply onMessage_from_bot.
  unfold SaganBot._isFromSaganBot. rewrite Hu, Hm. simpl.
  now rewrite String.eqb_refl.
Qed.

Lemma no_reply_to_own_message_witness :
  SaganBot._onMessage Scenario.started
    (Scenario.chat "U0BOT0001" "C024BE91L" "vra cloud") Scenario.used_world
  = (JS.Normal tt, Scenario.used_world).
Proof.
  apply (no_reply_to_own_message Scenario.started Scenario.saganbot);
    reflexivity.
Defined.

(** C7: a message that fails one of the four filters of [_onMessage] leaves
    the world as it is: no statement is sent to the store, nothing is
    posted, nothing is logged.  The handler returns normally whenever one of
    the first two filters fails or the bot identity is resolved. *)
Theorem filtered_message_has_no_effect
    (this : SaganBot.bot) (m : Message.t) (w : SaganBot.world) :
  SaganBot._isChatMessage m = false \/
  SaganBot._isChannelConversation m = false \/
  SaganBot._isFromSaganBot this m = JS.Normal true \/
  SaganBot._isMentioningvRA this m = JS.Normal false ->
  snd (SaganBot._onMessage this m w) = w /\
  (SaganBot._isChatMessage m = false \/
   SaganBot._isChannelConversation m = false \/
   SaganBot.user this <> None ->
   fst (SaganBot._onMessage this m w) = JS.Normal tt).
Proof.
  intros [H|[H|[H|H]]].
  - rewrite onMessage_not_chat by exact H. now split.
  - rewrite onMessage_not_channel by exact H. now split.
  - rewrite onMessage_from_bot by exact H. now split.
  - destruct (onMessage_no_mention this m w H) as [Hw Ho]. split; [exact Hw|].
    intros [H1|[H1|H1]].
    + now rewrite onMessage_not_chat.
    + now rewrite onMessage_not_channel.
    + now apply Ho.
Qed.

Lemma filtered_message_has_no_effect_witness :
  (snd (SaganBot._onMessage Scenario.started
          (Scenario.chat "U0ALICE01" "D024BE91L" "vra cloud")
          Scenario.used_world) = Scenario.used_world /\
   fst (SaganBot._onMessage Scenario.started
          (Scenario.chat "U0ALICE01" "D024BE91L" "vra cloud")
          Scenario.used_world) = JS.Normal tt) /\
  (snd (SaganBot._onMessage Scenario.started
          (Scenario.chat "U0ALICE01" "C024BE91L" "good morning")
          Scenario.used_world) = Scenario.used_world /\
   fst (SaganBot._onMessage Scenario.started
          (Scenario.chat "U0ALICE01" "C024BE91L" "good morning")
          Scenario.used_world) = JS.Normal tt).
Proof.
  split.
  - destruct (filtered_message_has_no_effect Scenario.started
                (Scenario.chat "U0ALICE01" "D024BE91L" "vra cloud")
                Scenario.used_world) as [Hw Ho].
    + right; left; reflexivity.
    + split; [exact Hw | apply Ho; right; left; reflexivity].
  - destruct (filtered_message_has_no_effect Scenario.started
                (Scenario.chat "U0ALICE01" "C024BE91L" "good morning")
                Scenario.used_world) as [Hw Ho].
    + right; right; right; reflexivity.
    + split; [exact Hw | apply Ho; right; right; discriminate].
Defined.

(* ===================================================================== *)
(** ** The trigger *)

Lemma isMentioningvRA_string
    (this : SaganBot.bot) (m : Message.t) (s : string) :
  Message.text m = JS.VString s ->
  SaganBot._isMentioningvRA this m =
  JS.Normal ((JS.indexOf (JS.toLowerCase s) "vra" >? -1)
             || (JS.indexOf (JS.toLowerCase s) (SaganBot.name this) >? -1)).
Proof.
  intros H. unfold SaganBot._isMentioningvRA. rewrite H. simpl.
  destruct (JS.indexOf (JS.toLowerCase s) "vra" >? -1); reflexivity.
Qed.

(** What the trigger predicate computes on a text message: it holds
    exactly when the lowercase text contains "vra" or the name of the bot as
    it is configured; and a message whose lowercase text contains neither
    "vra" nor the lowercase name has no effect: nothing is posted and no
    statement is sent to the store. *)
Theorem mentions_trigger_iff
    (this : SaganBot.bot) (m : Message.t) (s : string) :
  Message.text m = JS.VString s ->
  (SaganBot._isMentioningvRA this m = JS.Normal true <->
   contains (JS.toLowerCase s) "vra" \/
   contains (JS.toLowerCase s) (SaganBot.name this)) /\
  (forall w : SaganBot.world,
     ~ contains (JS.toLowerCase s) "vra" ->
     ~ contains (JS.toLowerCase s) (JS.toLowerCase (SaganBot.name this)) ->
     snd (SaganBot._onMessage this m w) = w).
Proof.
  intros H. rewrite (isMentioningvRA_string this m s H).
  assert (Hiff :
    (JS.indexOf (JS.toLowerCase s) "vra" >? -1)
    || (JS.indexOf (JS.toLowerCase s) (SaganBot.name this) >? -1) = true <->
    contains (JS.toLowerCase s) "vra" \/
    contains (JS.toLowerCase s) (SaganBot.name this)).
  { rewrite orb_true_iff, !indexOf_contains. reflexivity. }
  split.
  - split.
    + intros E. apply Hiff. now injection E.
    + intros E. apply Hiff in E. now rewrite E.
  - intros w Hvra Hname.
    apply (onMessage_no_mention this m w).
    rewrite (isMentioningvRA_string this m s H). f_equal.
    apply not_true_is_false. intros E. apply Hiff in E.
    destruct E as [E|E]; [now apply Hvra|].
    apply Hname. now rewrite (contains_lowercase _ _ E).
Qed.

Lemma mentions_trigger_iff_witness :
  (SaganBot._isMentioningvRA Scenario.started Scenario.vra_cloud
   = JS.Normal true <->
   contains (JS.toLowerCase "vra cloud") "vra" \/
   contains (JS.toLowerCase "vra cloud") (SaganBot.name Scenario.started)) /\
  snd (SaganBot._onMessage Scenario.started
         (Scenario.chat "U0ALICE01" "C024BE91L" "Good morning")
         Scenario.used_world) = Scenario.used_world.
Proof.
  split.
  - apply (mentions_trigger_iff Scenario.started Scenario.vra_cloud
             "vra cloud").
    reflexivity.
  - apply (mentions_trigger_iff Scenario.started
             (Scenario.chat "U0ALICE01" "C024BE91L" "Good morning")
             "Good morning").
    + reflexivity.
    + intros C. apply indexOf_contains in C. vm_compute in C. discriminate C.
    + intros C. apply indexOf_contains in C. vm_compute in C. discriminate C.
Defined.

(** For a bot whose configured name has a capital, the predicate is not
    the one that looks for the lowercase name: the lowercase text contains
    the lowercase name, and the predicate is false. *)
Lemma mentions_trigger_misses_lowercased_name :
  ~ (SaganBot._isMentioningvRA Scenario.capitalised
       (Scenario.chat "U0ALICE01" "C024BE91L" "SaganBot help")
     = JS.Normal true <->
     contains (JS.toLowerCase "SaganBot help") "vra" \/
     contains (JS.toLowerCase "SaganBot help")
       (JS.toLowerCase (SaganBot.name Scenario.capitalised))).
Proof.
  intros [_ H].
  assert (E : SaganBot._isMentioningvRA Scenario.capitalised
                (Scenario.chat "U0ALICE01" "C024BE91L" "SaganBot help")
              = JS.Normal true).
  { apply H. right. exists "", " help". reflexivity. }
  vm_compute in E. discriminate E.
Qed.

(** A name with a capital in it occurs in no lowercase text: for a bot so
    named, the second test of [_isMentioningvRA] is false on every text. *)
Lemma capitalised_name_never_found (this : SaganBot.bot) (s : string) :
  JS.toLowerCase (SaganBot.name this) <> SaganBot.name this ->
  (JS.indexOf (JS.toLowerCase s) (SaganBot.name this) >? -1) = false.
Proof.
  intros Hcap. apply not_true_is_false. intros E.
  apply indexOf_contains in E. apply Hcap.
  apply (contains_lowercase s _ E).
Qed.

(** C6 on the code: a bot configured with the name "SaganBot" is
    constructed and started; the message "SaganBot help" of another user in
    a channel of the roster has a lowercase text that contains the bot's
    lowercase name, yet the trigger predicate is false on it and the
    handler returns without a lookup and without a reply.  The method
    lowercases the text and searches it for [this.name] as it is. *)
Theorem capitalised_name_is_no_trigger :
  fst (SaganBot._onStart Scenario.capitalised_constructed Scenario.used_world)
  = JS.Normal Scenario.capitalised /\
  contains (JS.toLowerCase "SaganBot help")
    (JS.toLowerCase (SaganBot.name Scenario.capitalised)) /\
  SaganBot._isMentioningvRA Scenario.capitalised
    (Scenario.chat "U0ALICE01" "C024BE91L" "SaganBot help")
  = JS.Normal false /\
  SaganBot._onMessage Scenario.capitalised
    (Scenario.chat "U0ALICE01" "C024BE91L" "SaganBot help")
    Scenario.used_world
  = (JS.Normal tt, Scenario.used_world).
Proof.
  split; [reflexivity|]. split; [|split; reflexivity].
  exists "", " help". reflexivity.
Qed.

(* ===================================================================== *)
(** ** Startup *)

Section Startup.
Import JS SaganBot.

Lemma loadBotUser_unmatched (this : bot) :
  (forall u, In u (users this) -> User.name u <> name this) ->
  user (_loadBotUser this) = None.
Proof.
  intros H. unfold _loadBotUser. simpl.
  induction (users this) as [|u us IH]; simpl; [reflexivity|].
  destruct (String.eqb_spec (User.name u) (name this)) as [E|E].
  - exfalso. apply (H u); [now left | exact E].
  - apply IH. intros u' Hu'. apply H. now right.
Qed.

Lemma select_lastrun_None (d : Sqlite.database) :
  Sqlite.select_lastrun d = None <-> ~ has_lastrun d.
Proof.
  unfold Sqlite.select_lastrun, has_lastrun. split.
  - intros H (r & Hin & Hn).
    pose proof (find_none _ _ H r Hin) as E.
    unfold Sqlite.is_lastrun in E. rewrite Hn in E. discriminate E.
  - intros H. destruct (find Sqlite.is_lastrun (Sqlite.INFO d)) as [r|] eqn:E;
      [|reflexivity].
    exfalso. apply H. apply find_some in E. destruct E as [Hin Hl].
    exists r. split; [exact Hin|]. now apply String.eqb_eq.
Qed.

Lemma filter_lastrun_none (rows : list Sqlite.info_row) :
  find Sqlite.is_lastrun rows = None -> filter Sqlite.is_lastrun rows = [].
Proof.
  induction rows as [|r rows IH]; simpl; [reflexivity|].
  destruct (Sqlite.is_lastrun r); [discriminate | exact IH].
Qed.

(** What [_connectDb] does when the file is there. *)
Lemma connectDb_found (this : bot) (w : world) :
  existsb (String.eqb (dbPath this)) (files w) = true ->
  _connectDb this w =
  (Normal (mkBot (name this) (dbPath this) (user this) (Some (dbPath this))
                 (users this) (channels this)), w).
Proof.
  intros H. unfold _connectDb, bind, existsSync. rewrite H. reflexivity.
Qed.

End Startup.

(** The bot of the scenario, once started on the fresh store. *)
Example constructed_bot_starts :
  fst (SaganBot._onStart Scenario.constructed Scenario.fresh_world)
  = JS.Normal Scenario.started.
Proof. reflexivity. Qed.

(** C5 on the code: when no user of the roster has the configured name, the
    identity stays unset, and the self-authorship check raises a TypeError
    on every message: it does not evaluate to false. *)
Theorem unresolved_identity_check_raises
    (this : SaganBot.bot) (m : Message.t) :
  (forall u, In u (SaganBot.users this) ->
             User.name u <> SaganBot.name this) ->
  SaganBot.user (SaganBot._loadBotUser this) = None /\
  SaganBot._isFromSaganBot (SaganBot._loadBotUser this) m
  = JS.Throw (JS.TypeError "Cannot read property 'id' of undefined").
Proof.
  intros H. pose proof (loadBotUser_unmatched this H) as E.
  split; [exact E|]. unfold SaganBot._isFromSaganBot. now rewrite E.
Qed.

Lemma unresolved_identity_check_raises_witness :
  SaganBot.user (SaganBot._loadBotUser Scenario.stranger) = None /\
  SaganBot._isFromSaganBot (SaganBot._loadBotUser Scenario.stranger)
    Scenario.vra_cloud
  = JS.Throw (JS.TypeError "Cannot read property 'id' of undefined").
Proof.
  apply (unresolved_identity_check_raises Scenario.stranger Scenario.vra_cloud).
  intros u [<-|[]]. discriminate.
Defined.

(** The stranger bot is started and receives "vra cloud": the handler ends
    in the TypeError of the identity check. *)
Example unresolved_identity_message_raises :
  fst (SaganBot._onStart Scenario.stranger Scenario.used_world)
  = JS.Normal Scenario.nameless /\
  fst (SaganBot._onMessage Scenario.nameless Scenario.vra_cloud
         Scenario.used_world)
  = JS.Throw (JS.TypeError "Cannot read property 'id' of undefined").
Proof. split; reflexivity. Qed.

(** C8: when the configured path of the store does not exist, [_onStart]
    prints the diagnostic and ends the process with exit code 1; nothing is
    posted and no statement is sent to the store. *)
Theorem missing_store_exits (this : SaganBot.bot) (w : SaganBot.world) :
  existsb (String.eqb (SaganBot.dbPath this)) (SaganBot.files w) = false ->
  fst (SaganBot._onStart this w) = JS.Exit 1 /\
  SaganBot.stderr (snd (SaganBot._onStart this w))
  = (SaganBot.stderr w
     ++ [[SaganBot.missing_database (SaganBot.dbPath this)]])%list /\
  SaganBot.outbox (snd (SaganBot._onStart this w)) = SaganBot.outbox w /\
  SaganBot.issued (snd (SaganBot._onStart this w)) = SaganBot.issued w /\
  SaganBot.store (snd (SaganBot._onStart this w)) = SaganBot.store w.
Proof.
  intros H.
  unfold SaganBot._onStart, SaganBot._connectDb, SaganBot.bind,
    SaganBot.existsSync.
  cbn [SaganBot.dbPath SaganBot._loadBotUser]. rewrite H. cbn.
  repeat split; reflexivity.
Qed.

Lemma missing_store_exits_witness :
  fst (SaganBot._onStart Scenario.constructed
         (Scenario.world_of [] Scenario.fresh_store [])) = JS.Exit 1 /\
  SaganBot.outbox (snd (SaganBot._onStart Scenario.constructed
                          (Scenario.world_of [] Scenario.fresh_store []))) = [].
Proof.
  destruct (missing_store_exits Scenario.constructed
              (Scenario.world_of [] Scenario.fresh_store []))
    as (He & _ & Ho & _).
  - reflexivity.
  - split; [exact He | exact Ho].
Defined.

Section FirstRun.
Import JS SaganBot.

Variable this : bot.
Variable w : world.
Hypothesis connected : exists path, db this = Some path.
Hypothesis sound : store_sound w.

Lemma firstRunCheck_fresh (c : Channel.t) (cs : list Channel.t) :
  channels this = c :: cs ->
  Sqlite.select_lastrun (store w) = None ->
  _firstRunCheck this w =
  (Normal tt,
   mkWorld (files w) (Sqlite.insert_lastrun (store w) (clock w))
           (tl (tl (faults w))) (clock w)
           ((issued w ++ [SelectLastrun]) ++ [InsertLastrun (clock w)])
           (outbox w ++ [{| Slack.to := Channel.name c;
                            Slack.body := VString welcome;
                            Slack.as_user := true |}])
           (stderr w)).
Proof.
  intros Hc Hs. destruct connected as [path Hdb].
  unfold _firstRunCheck, db_get, db_run, _welcomeMessage, bind, send,
    read_store, write_store, Date_toJSON, postMessageToChannel.
  rewrite Hdb, Hc. unfold store_sound in sound.
  destruct (faults w) as [|e1 fs]; cbn -[Sqlite.select_lastrun];
    [rewrite Hs; reflexivity|].
  inversion sound as [|? ? He1 Hfs]; subst.
  cbn -[Sqlite.select_lastrun]. rewrite Hs.
  destruct fs as [|e2 fs]; cbn; [reflexivity|].
  inversion Hfs as [|? ? He2 _]; subst. reflexivity.
Qed.

Lemma firstRunCheck_again (r : Sqlite.info_row) :
  Sqlite.select_lastrun (store w) = Some r ->
  _firstRunCheck this w =
  (Normal tt,
   mkWorld (files w) (Sqlite.update_lastrun (store w) (clock w))
           (tl (tl (faults w))) (clock w)
           ((issued w ++ [SelectLastrun]) ++ [UpdateLastrun (clock w)])
           (outbox w) (stderr w)).
Proof.
  intros Hs. destruct connected as [path Hdb].
  unfold _firstRunCheck, db_get, db_run, bind, send,
    read_store, write_store, Date_toJSON.
  rewrite Hdb. unfold store_sound in sound.
  destruct (faults w) as [|e1 fs]; cbn -[Sqlite.select_lastrun];
    [rewrite Hs; reflexivity|].
  inversion sound as [|? ? He1 Hfs]; subst.
  cbn -[Sqlite.select_lastrun]. rewrite Hs.
  destruct fs as [|e2 fs]; cbn; [reflexivity|].
  inversion Hfs as [|? ? He2 _]; subst. reflexivity.
Qed.

End FirstRun.

Lemma updated_lastrun_rows (d : Sqlite.database) (val : string)
    (r : Sqlite.info_row) :
  In r (Sqlite.INFO (Sqlite.update_lastrun d val)) ->
  Sqlite.NAME r = "lastrun" -> Sqlite.VAL r = val.
Proof.
  unfold Sqlite.update_lastrun. simpl. intros Hin Hn.
  apply in_map_iff in Hin. destruct Hin as (r0 & E & _).
  destruct (Sqlite.is_lastrun r0) eqn:El.
  - now subst r.
  - subst r. unfold Sqlite.is_lastrun in El. rewrite Hn in El. discriminate El.
Qed.

(** C3: an activation with the store in place and answering.  Without a
    lastrun record, one welcome message is posted, to the first channel of
    the roster, and one lastrun record, holding the current time, is
    inserted.  With a lastrun record, nothing is posted and the record's
    value becomes the current time. *)
Theorem first_run_welcomes_once (this : SaganBot.bot) (w : SaganBot.world) :
  existsb (String.eqb (SaganBot.dbPath this)) (SaganBot.files w) = true ->
  store_sound w ->
  (~ has_lastrun (SaganBot.store w) ->
   forall c cs, SaganBot.channels this = c :: cs ->
     SaganBot.outbox (snd (SaganBot._onStart this w))
     = (SaganBot.outbox w
        ++ [{| Slack.to := Channel.name c;
               Slack.body := JS.VString SaganBot.welcome;
               Slack.as_user := true |}])%list /\
     Sqlite.INFO (SaganBot.store (snd (SaganBot._onStart this w)))
     = (Sqlite.INFO (SaganBot.store w)
        ++ [{| Sqlite.NAME := "lastrun";
               Sqlite.VAL := SaganBot.clock w |}])%list /\
     List.length
       (filter Sqlite.is_lastrun
          (Sqlite.INFO (SaganBot.store (snd (SaganBot._onStart this w)))))
     = 1%nat) /\
  (has_lastrun (SaganBot.store w) ->
   SaganBot.outbox (snd (SaganBot._onStart this w)) = SaganBot.outbox w /\
   SaganBot.store (snd (SaganBot._onStart this w))
   = Sqlite.update_lastrun (SaganBot.store w) (SaganBot.clock w) /\
   List.length (Sqlite.INFO (SaganBot.store (snd (SaganBot._onStart this w))))
   = List.length (Sqlite.INFO (SaganBot.store w)) /\
   forall r,
     In r (Sqlite.INFO (SaganBot.store (snd (SaganBot._onStart this w)))) ->
     Sqlite.NAME r = "lastrun" -> Sqlite.VAL r = SaganBot.clock w).
Proof.
  intros Hfile Hsound.
  set (started :=
         SaganBot.mkBot (SaganBot.name this) (SaganBot.dbPath this)
           (SaganBot.user (SaganBot._loadBotUser this))
           (Some (SaganBot.dbPath this)) (SaganBot.users this)
           (SaganBot.channels this)).
  assert (Hconn : exists path, SaganBot.db started = Some path)
    by (exists (SaganBot.dbPath this); reflexivity).
  assert (Hstart : forall w',
    SaganBot._firstRunCheck started w = (JS.Normal tt, w') ->
    snd (SaganBot._onStart this w) = w').
  { intros w' E. unfold SaganBot._onStart, SaganBot.bind.
    rewrite connectDb_found by exact Hfile.
    change (SaganBot.mkBot _ _ _ _ _ _) with started.
    now rewrite E. }
  split.
  - intros Hnone c cs Hc. apply select_lastrun_None in Hnone.
    rewrite (Hstart _ (firstRunCheck_fresh started w Hconn Hsound
                         c cs Hc Hnone)).
    cbn. repeat split.
    rewrite filter_app, (filter_lastrun_none _ Hnone). reflexivity.
  - intros Hsome.
    destruct (Sqlite.select_lastrun (SaganBot.store w)) as [r|] eqn:Hr.
    2:{ exfalso. now apply select_lastrun_None in Hr. }
    rewrite (Hstart _ (firstRunCheck_again started w Hconn Hsound r Hr)).
    cbn. repeat split.
    + apply length_map.
    + intros r'. apply updated_lastrun_rows.
Qed.

Lemma first_run_welcomes_once_witness :
  (SaganBot.outbox (snd (SaganBot._onStart Scenario.constructed
                           Scenario.fresh_world))
   = [{| Slack.to := "general";
         Slack.body := JS.VString SaganBot.welcome;
         Slack.as_user := true |}] /\
   Sqlite.INFO (SaganBot.store (snd (SaganBot._onStart Scenario.constructed
                                       Scenario.fresh_world)))
   = [{| Sqlite.NAME := "lastrun";
         Sqlite.VAL := "2016-03-02T08:30:00.000Z" |}]) /\
  (SaganBot.outbox (snd (SaganBot._onStart Scenario.constructed
                           Scenario.used_world)) = [] /\
   SaganBot.store (snd (SaganBot._onStart Scenario.constructed
                          Scenario.used_world))
   = {| Sqlite.GLOSSARY := [Scenario.cloud];
        Sqlite.INFO := [{| Sqlite.NAME := "lastrun";
                           Sqlite.VAL := "2016-03-02T08:30:00.000Z" |}] |}).
Proof.
  split.
  - destruct (first_run_welcomes_once Scenario.constructed
                Scenario.fresh_world) as [Hfresh _].
    + reflexivity.
    + constructor.
    + destruct (Hfresh (fun H => match H with
                                 | ex_intro _ _ (conj Hin _) => Hin
                                 end)
                  Scenario.general [Scenario.random] eq_refl)
        as (Ho & Hi & _).
      split; [exact Ho | exact Hi].
  - destruct (first_run_welcomes_once Scenario.constructed
                Scenario.used_world) as [_ Hused].
    + reflexivity.
    + constructor.
    + destruct Hused as (Ho & Hs & _).
      * exists {| Sqlite.NAME := "lastrun";
                  Sqlite.VAL := "2016-03-01T09:00:00.000Z" |}.
        split; [left; reflexivity | reflexivity].
      * split; [exact Ho | exact Hs].
Defined.

(* ===================================================================== *)
(** ** Lookup and reply *)

Section Reply.
Import JS SaganBot.

Variable this : bot.
Variable m : Message.t.
Variable w : world.
Variable s : string.
Hypothesis text_is : Message.text m = VString s.
Hypothesis connected : exists path, db this = Some path.

Lemma reply_on_error (e : string) (fs : list (option string)) :
  faults w = Some e :: fs ->
  _replyWithDescription this m w =
  (Normal tt,
   mkWorld (files w) (store w) fs (clock w)
           (issued w
            ++ [SelectGlossary (Sqlite.ParamNumber (unary_plus (drop 4 s)))])
           (outbox w) (stderr w ++ [["DATABASE ERROR:"; e]])).
Proof.
  intros Hf. destruct connected as [path Hdb].
  unfold _replyWithDescription, bind, lift, call_slice_to_length.
  rewrite text_is, slice_4_length, Hdb.
  unfold db_all, bind, send, console_error. rewrite Hf. reflexivity.
Qed.

Lemma reply_on_rows :
  hd None (faults w) = None ->
  _replyWithDescription this m w =
  match _getChannelById this (Message.channel m) with
  | Some channel =>
      (Normal tt,
       mkWorld (files w) (store w) (tl (faults w)) (clock w)
               (issued w
                ++ [SelectGlossary
                      (Sqlite.ParamNumber (unary_plus (drop 4 s)))])
               (outbox w ++ [{| Slack.to := Channel.name channel;
                                Slack.body := VUndefined;
                                Slack.as_user := true |}])
               (stderr w))
  | None =>
      (Throw (TypeError "Cannot read property 'name' of undefined"),
       mkWorld (files w) (store w) (tl (faults w)) (clock w)
               (issued w
                ++ [SelectGlossary
                      (Sqlite.ParamNumber (unary_plus (drop 4 s)))])
               (outbox w) (stderr w))
  end.
Proof.
  intros Hf. destruct connected as [path Hdb].
  unfold _replyWithDescription, bind, lift, call_slice_to_length.
  rewrite text_is, slice_4_length, Hdb.
  unfold db_all, bind, send, read_store, postMessageToChannel, throw, lift.
  assert (E : match faults w with e :: _ => e | [] => None end = None)
    by (destruct (faults w); [reflexivity | exact Hf]).
  rewrite E. cbn -[unary_plus drop].
  destruct (_getChannelById this (Message.channel m)); reflexivity.
Qed.

End Reply.

Lemma onMessage_passes
    (this : SaganBot.bot) (m : Message.t) (w : SaganBot.world) :
  SaganBot._isChatMessage m = true ->
  SaganBot._isChannelConversation m = true ->
  SaganBot._isFromSaganBot this m = JS.Normal false ->
  SaganBot._isMentioningvRA this m = JS.Normal true ->
  SaganBot._onMessage this m w = SaganBot._replyWithDescription this m w.
Proof.
  intros H1 H2 H3 H4. unfold SaganBot._onMessage, SaganBot.bind, SaganBot.lift.
  now rewrite H1, H2, H3, H4.
Qed.

Lemma mentioning_has_text
    (this : SaganBot.bot) (m : Message.t) (b : bool) :
  SaganBot._isMentioningvRA this m = JS.Normal b ->
  exists s, Message.text m = JS.VString s.
Proof.
  unfold SaganBot._isMentioningvRA.
  destruct (Message.text m) as [| |x|s]; simpl; try discriminate.
  intros _. now exists s.
Qed.

(** A NULL parameter selects no row of the glossary. *)
Lemma select_glossary_NaN (d : Sqlite.database) :
  Sqlite.select_glossary d (Sqlite.ParamNumber JS.NaN) = [].
Proof.
  unfold Sqlite.select_glossary. simpl.
  induction (Sqlite.GLOSSARY d) as [|r rows IH]; simpl; [reflexivity|exact IH].
Qed.

(** Whatever a reply posts, its text is [undefined]. *)
Lemma reply_text_is_undefined
    (this : SaganBot.bot) (m : Message.t) (w : SaganBot.world)
    (p : Slack.post) :
  In p (SaganBot.outbox (snd (SaganBot._replyWithDescription this m w))) ->
  In p (SaganBot.outbox w) \/ Slack.body p = JS.VUndefined.
Proof.
  unfold SaganBot._replyWithDescription, SaganBot.bind, SaganBot.lift,
    JS.call_slice_to_length.
  destruct (Message.text m) as [| |x|s]; simpl; auto.
  destruct (SaganBot.db this) as [path|]; simpl; auto.
  unfold SaganBot.db_all, SaganBot.bind, SaganBot.send, SaganBot.read_store,
    SaganBot.console_error, SaganBot.postMessageToChannel, SaganBot.throw,
    SaganBot.lift.
  destruct (SaganBot.faults w) as [|[e|] fs]; cbn -[JS.unary_plus JS.slice];
    auto;
    destruct (SaganBot._getChannelById this (Message.channel m));
    cbn -[JS.unary_plus JS.slice]; auto;
    intros Hin; apply in_app_or in Hin;
    (destruct Hin as [Hin|[<-|[]]]; [now left | now right]).
Qed.

(** C9: when the store answers the glossary statement of a triggering
    message with an error, the error is logged, nothing is posted, the store
    is as before, and the handler returns: the events that follow are
    served. *)
Theorem query_error_is_logged
    (this : SaganBot.bot) (m : Message.t) (w : SaganBot.world)
    (e : string) (fs : list (option string)) :
  SaganBot._isChatMessage m = true ->
  SaganBot._isChannelConversation m = true ->
  SaganBot._isFromSaganBot this m = JS.Normal false ->
  SaganBot._isMentioningvRA this m = JS.Normal true ->
  (exists path, SaganBot.db this = Some path) ->
  SaganBot.faults w = Some e :: fs ->
  exists w',
    SaganBot._onMessage this m w = (JS.Normal tt, w') /\
    SaganBot.stderr w' = (SaganBot.stderr w ++ [["DATABASE ERROR:"; e]])%list /\
    SaganBot.outbox w' = SaganBot.outbox w /\
    SaganBot.store w' = SaganBot.store w /\
    forall rest, SaganBot.serve this (m :: rest) w = SaganBot.serve this rest w'.
Proof.
  intros H1 H2 H3 H4 Hdb Hf.
  destruct (mentioning_has_text this m true H4) as [s Hs].
  pose proof (reply_on_error this m w s Hs Hdb e fs Hf) as E.
  rewrite <- (onMessage_passes this m w H1 H2 H3 H4) in E.
  eexists. split; [exact E|]. cbn. repeat split.
  intros rest. cbn [SaganBot.serve]. unfold SaganBot.bind at 1.
  now rewrite E.
Qed.

Lemma query_error_is_logged_witness :
  exists w',
    SaganBot._onMessage Scenario.started Scenario.vra_cloud
      (Scenario.world_of [Scenario.db_file] Scenario.used_store
         [Some "SQLITE_BUSY: database is locked"])
    = (JS.Normal tt, w') /\
    SaganBot.stderr w'
    = [["DATABASE ERROR:"; "SQLITE_BUSY: database is locked"]] /\
    SaganBot.outbox w' = [] /\
    SaganBot.serve Scenario.started [Scenario.vra_cloud; Scenario.vra_cloud]
      (Scenario.world_of [Scenario.db_file] Scenario.used_store
         [Some "SQLITE_BUSY: database is locked"])
    = SaganBot.serve Scenario.started [Scenario.vra_cloud] w'.
Proof.
  destruct (query_error_is_logged Scenario.started Scenario.vra_cloud
              (Scenario.world_of [Scenario.db_file] Scenario.used_store
                 [Some "SQLITE_BUSY: database is locked"])
              "SQLITE_BUSY: database is locked" [])
    as (w' & E & Hlog & Hout & _ & Hserve);
    try reflexivity.
  - exists Scenario.db_file. reflexivity.
  - exists w'. split; [exact E|]. split; [exact Hlog|].
    split; [exact Hout | apply Hserve].
Defined.

(** C10: after a lookup that the store answers without error, a message
    whose channel id is the id of no channel of the roster resolves to no
    channel, and reading the name of that channel raises a TypeError: the
    reply step ends in an exception and posts nothing. *)
Theorem reply_to_unknown_channel_raises
    (this : SaganBot.bot) (m : Message.t) (w : SaganBot.world) (s : string) :
  Message.text m = JS.VString s ->
  (exists path, SaganBot.db this = Some path) ->
  hd None (SaganBot.faults w) = None ->
  (forall c, In c (SaganBot.channels this) ->
             JS.VString (Channel.id c) <> Message.channel m) ->
  SaganBot._getChannelById this (Message.channel m) = None /\
  fst (SaganBot._replyWithDescription this m w)
  = JS.Throw (JS.TypeError "Cannot read property 'name' of undefined") /\
  SaganBot.outbox (snd (SaganBot._replyWithDescription this m w))
  = SaganBot.outbox w.
Proof.
  intros Hs Hdb Hf Hc.
  assert (E : SaganBot._getChannelById this (Message.channel m) = None).
  { unfold SaganBot._getChannelById.
    induction (SaganBot.channels this) as [|c cs IH]; cbn [filter];
      [reflexivity|].
    destruct (JS.strict_eq (JS.VString (Channel.id c)) (Message.channel m))
      eqn:Eq.
    - exfalso. apply (Hc c); [now left|].
      destruct (Message.channel m) as [| |x|t]; try discriminate Eq.
      simpl in Eq. apply String.eqb_eq in Eq. now rewrite Eq.
    - apply IH. intros c' Hin. apply Hc. now right. }
  rewrite (reply_on_rows this m w s Hs Hdb Hf), E. now repeat split.
Qed.

Lemma reply_to_unknown_channel_raises_witness :
  SaganBot._getChannelById Scenario.started (JS.VString "C0NEWCHAN") = None /\
  fst (SaganBot._replyWithDescription Scenario.started
         (Scenario.chat "U0ALICE01" "C0NEWCHAN" "vra cloud")
         Scenario.used_world)
  = JS.Throw (JS.TypeError "Cannot read property 'name' of undefined").
Proof.
  destruct (reply_to_unknown_channel_raises Scenario.started
              (Scenario.chat "U0ALICE01" "C0NEWCHAN" "vra cloud")
              Scenario.used_world "vra cloud") as (Hc & Ht & _).
  - reflexivity.
  - exists Scenario.db_file. reflexivity.
  - reflexivity.
  - intros c [<-|[<-|[]]]; discriminate.
  - split; [exact Hc | exact Ht].
Defined.

(** C1 on the code: with the entry cloud in the store, the message
    "vra cloud" of another user in a channel of the roster passes the four
    filters, and the one post that follows goes to that channel with the
    text [undefined], not with the description of the entry. *)
Theorem cloud_reply_has_no_description :
  In Scenario.cloud (Sqlite.GLOSSARY (SaganBot.store Scenario.used_world)) /\
  Sqlite.DESCRIPTION Scenario.cloud = "A pool of compute." /\
  SaganBot._onMessage Scenario.started Scenario.vra_cloud Scenario.used_world
  = (JS.Normal tt,
     SaganBot.mkWorld [Scenario.db_file] Scenario.used_store []
       "2016-03-02T08:30:00.000Z"
       [SaganBot.SelectGlossary (Sqlite.ParamNumber JS.NaN)]
       [{| Slack.to := "general"; Slack.body := JS.VUndefined;
           Slack.as_user := true |}]
       []).
Proof.
  split; [now left|]. split; reflexivity.
Qed.

(** C2 on the code: the query term of "vra cloud" is "cloud", but the
    value bound to the statement is [+"cloud"], which is NaN; the store
    gets NULL and selects no row, although the row of the term "cloud" is
    there and is the one a lookup of the text "cloud" selects. *)
Theorem cloud_term_is_bound_as_NaN :
  JS.call_slice_to_length (Message.text Scenario.vra_cloud) 4
  = JS.Normal "cloud" /\
  SaganBot.issued
    (snd (SaganBot._onMessage Scenario.started Scenario.vra_cloud
            Scenario.used_world))
  = [SaganBot.SelectGlossary (Sqlite.ParamNumber JS.NaN)] /\
  Sqlite.select_glossary Scenario.used_store (Sqlite.ParamNumber JS.NaN) = [] /\
  Sqlite.select_glossary Scenario.used_store (Sqlite.ParamString "cloud")
  = [{| Sqlite.row_DESCRIPTION := "A pool of compute.";
        Sqlite.row_PREREQS := "none" |}].
Proof. repeat split. Qed.

(* ===================================================================== *)
(** ** Construction and the roster *)

(** The constructor never leaves the name empty: a configured name that is
    not empty is kept, an absent or empty one becomes "saganbot"; the same
    holds of the path of the store and its default; the identity and the
    handle start unset. *)
Theorem Constructor_defaults
    (default_dbPath : string) (s : SaganBot.settings)
    (us : list User.t) (cs : list Channel.t) :
  let this := SaganBot.Constructor default_dbPath s us cs in
  SaganBot.name this <> "" /\
  (forall n, SaganBot.settings_name s = Some n -> n <> "" ->
             SaganBot.name this = n) /\
  (SaganBot.settings_name s = None \/ SaganBot.settings_name s = Some "" ->
   SaganBot.name this = "saganbot") /\
  (forall p, SaganBot.settings_dbPath s = Some p -> p <> "" ->
             SaganBot.dbPath this = p) /\
  (SaganBot.settings_dbPath s = None \/ SaganBot.settings_dbPath s = Some "" ->
   SaganBot.dbPath this = default_dbPath) /\
  SaganBot.user this = None /\ SaganBot.db this = None.
Proof.
  cbn. unfold SaganBot.or_default. repeat split.
  - destruct (SaganBot.settings_name s) as [n|]; [|discriminate].
    destruct (String.eqb_spec n ""); [discriminate | assumption].
  - intros n -> Hn. destruct (String.eqb_spec n ""); [contradiction|reflexivity].
  - intros [->| ->]; reflexivity.
  - intros p -> Hp. destruct (String.eqb_spec p ""); [contradiction|reflexivity].
  - intros [->| ->]; reflexivity.
Qed.

(** [_loadBotUser] resolves the identity to the first user of the roster
    whose name is the name of the bot, leaves it unset exactly when no user
    has that name, and changes nothing else of the bot. *)
Theorem loadBotUser_first_match (this : SaganBot.bot) :
  match SaganBot.user (SaganBot._loadBotUser this) with
  | Some u =>
      exists before after,
        SaganBot.users this = (before ++ u :: after)%list /\
        User.name u = SaganBot.name this /\
        forall v, In v before -> User.name v <> SaganBot.name this
  | None =>
      forall v, In v (SaganBot.users this) -> User.name v <> SaganBot.name this
  end /\
  SaganBot.name (SaganBot._loadBotUser this) = SaganBot.name this /\
  SaganBot.dbPath (SaganBot._loadBotUser this) = SaganBot.dbPath this /\
  SaganBot.db (SaganBot._loadBotUser this) = SaganBot.db this /\
  SaganBot.users (SaganBot._loadBotUser this) = SaganBot.users this /\
  SaganBot.channels (SaganBot._loadBotUser this) = SaganBot.channels this.
Proof.
  split; [|repeat split]. unfold SaganBot._loadBotUser. cbn.
  induction (SaganBot.users this) as [|u us IH]; cbn [filter].
  - intros v [].
  - destruct (String.eqb_spec (User.name u) (SaganBot.name this)) as [E|E].
    + cbn. exists [], us. split; [reflexivity|]. split; [exact E|].
      intros v [].
    + destruct (hd_error
                  (filter (fun u0 => String.eqb (User.name u0)
                                                (SaganBot.name this)) us))
        as [u'|].
      * destruct IH as (before & after & Hus & Hn & Hb).
        exists (u :: before), after. split; [cbn; now rewrite Hus|].
        split; [exact Hn|]. intros v [<-|Hv]; [exact E | now apply Hb].
      * intros v [<-|Hv]; [exact E | now apply IH].
Qed.

Section Channels.
Import JS SaganBot.

Variable this : bot.

Lemma getChannelById_first (channelId : value) :
  match _getChannelById this channelId with
  | Some c =>
      exists before after,
        channels this = (before ++ c :: after)%list /\
        channelId = VString (Channel.id c) /\
        forall d, In d before -> VString (Channel.id d) <> channelId
  | None =>
      forall d, In d (channels this) -> VString (Channel.id d) <> channelId
  end.
Proof.
  unfold _getChannelById.
  induction (channels this) as [|c cs IH]; cbn [filter].
  - intros d [].
  - destruct (strict_eq (VString (Channel.id c)) channelId) eqn:E.
    + cbn. exists [], cs. split; [reflexivity|]. split; [|intros d []].
      destruct channelId as [| |b|t]; try discriminate E.
      cbn in E. apply String.eqb_eq in E. now rewrite E.
    + assert (Hc : VString (Channel.id c) <> channelId).
      { intros <-. cbn in E. rewrite String.eqb_refl in E. discriminate E. }
      destruct (hd_error
                  (filter (fun item =>
                             strict_eq (VString (Channel.id item)) channelId)
                          cs)) as [c'|].
      * destruct IH as (before & after & Hcs & Hid & Hb).
        exists (c :: before), after. split; [cbn; now rewrite Hcs|].
        split; [exact Hid|]. intros d [<-|Hd]; [exact Hc | now apply Hb].
      * intros d [<-|Hd]; [exact Hc | now apply IH].
Qed.

End Channels.

Lemma getChannelById_spec
    (this : SaganBot.bot) (channelId : JS.value) :
  (forall c, SaganBot._getChannelById this channelId = Some c ->
             In c (SaganBot.channels this) /\
             channelId = JS.VString (Channel.id c)) /\
  (SaganBot._getChannelById this channelId = None <->
   forall d, In d (SaganBot.channels this) ->
             JS.VString (Channel.id d) <> channelId).
Proof.
  pose proof (getChannelById_first this channelId) as H.
  destruct (SaganBot._getChannelById this channelId) as [c|].
  - destruct H as (before & after & Hcs & Hid & _). split.
    + intros c' E. injection E as <-. split; [|exact Hid].
      rewrite Hcs. apply in_or_app. right. now left.
    + split; [discriminate|]. intros Hall. exfalso.
      apply (Hall c); [|now rewrite Hid].
      rewrite Hcs. apply in_or_app. right. now left.
  - split; [discriminate|]. split; [intros _; exact H | reflexivity].
Qed.

(** [_getChannelById] gives the first channel of the roster with the id
    asked for: what it finds is in the roster and has that id, and it finds
    nothing exactly when no channel of the roster has the id (so never for
    an id that is not a string). *)
Theorem getChannelById_sound_complete
    (this : SaganBot.bot) (channelId : JS.value) :
  (forall c, SaganBot._getChannelById this channelId = Some c ->
             In c (SaganBot.channels this) /\
             channelId = JS.VString (Channel.id c)) /\
  (SaganBot._getChannelById this channelId = None <->
   forall d, In d (SaganBot.channels this) ->
             JS.VString (Channel.id d) <> channelId).
Proof. exact (getChannelById_spec this channelId). Qed.

(** In a roster whose channel ids are distinct, looking a channel up by its
    own id gives that channel back. *)
Theorem getChannelById_own_id (this : SaganBot.bot) (c : Channel.t) :
  NoDup (map Channel.id (SaganBot.channels this)) ->
  In c (SaganBot.channels this) ->
  SaganBot._getChannelById this (JS.VString (Channel.id c)) = Some c.
Proof.
  intros Hnd Hin.
  pose proof (getChannelById_first this (JS.VString (Channel.id c))) as H.
  destruct (SaganBot._getChannelById this (JS.VString (Channel.id c)))
    as [c'|]; [|now elim (H c Hin)].
  destruct H as (before & after & Hcs & Hid & Hb).
  injection Hid as Hid. f_equal.
  rewrite Hcs in Hnd, Hin. rewrite map_app in Hnd. cbn in Hnd.
  apply in_app_or in Hin. destruct Hin as [Hin|[E|Hin]].
  - now elim (Hb c Hin).
  - exact E.
  - exfalso. apply NoDup_remove_2 in Hnd. apply Hnd.
    apply in_or_app. right. rewrite <- Hid. now apply in_map.
Qed.

Lemma getChannelById_own_id_witness :
  SaganBot._getChannelById Scenario.started
    (JS.VString (Channel.id Scenario.random)) = Some Scenario.random.
Proof.
  apply (getChannelById_own_id Scenario.started Scenario.random).
  - repeat constructor; cbn; intuition discriminate.
  - right. now left.
Defined.

(* ===================================================================== *)
(** ** What handling a message can do *)

Section Handling.
Import JS SaganBot.

Variable this : bot.
Variable m : Message.t.
Variable w : world.

(** The handler either stops at a filter, with the world as it was, or
    hands the message to [_replyWithDescription]. *)
Lemma onMessage_cases :
  (snd (_onMessage this m w) = w /\
   (fst (_onMessage this m w) = Normal tt \/
    exists e, fst (_onMessage this m w) = Throw e)) \/
  (_isChatMessage m = true /\ _isChannelConversation m = true /\
   _isFromSaganBot this m = Normal false /\
   _isMentioningvRA this m = Normal true /\
   _onMessage this m w = _replyWithDescription this m w).
Proof.
  unfold _onMessage, bind, lift.
  destruct (_isChatMessage m); [|left; split; [reflexivity | now left]].
  destruct (_isChannelConversation m);
    [|left; split; [reflexivity | now left]].
  cbn [andb].
  destruct (_isFromSaganBot this m) as [[|]|e|n] eqn:Hf; cbn.
  - left; split; [reflexivity | now left].
  - destruct (_isMentioningvRA this m) as [[|]|e|n] eqn:Hm; cbn.
    + right. repeat split; reflexivity.
    + left; split; [reflexivity | now left].
    + left; split; [reflexivity | right; now exists e].
    + exfalso. unfold _isMentioningvRA, call_toLowerCase in Hm.
      destruct (Message.text m); try discriminate Hm.
      destruct (indexOf (toLowerCase s) "vra" >? -1); discriminate Hm.
  - left; split; [reflexivity | right; now exists e].
  - exfalso. unfold _isFromSaganBot in Hf.
    destruct (user this); discriminate Hf.
Qed.

(** The reply step, case by case. *)
Lemma reply_cases :
  let sent s := SelectGlossary (Sqlite.ParamNumber (unary_plus (drop 4 s))) in
  (snd (_replyWithDescription this m w) = w /\
   (exists e, fst (_replyWithDescription this m w) = Throw e) /\
   (db this = None \/ forall s, Message.text m <> VString s)) \/
  (exists s e fs,
     Message.text m = VString s /\ faults w = Some e :: fs /\
     _replyWithDescription this m w =
     (Normal tt,
      mkWorld (files w) (store w) fs (clock w) (issued w ++ [sent s])
              (outbox w) (stderr w ++ [["DATABASE ERROR:"; e]]))) \/
  (exists s,
     Message.text m = VString s /\ hd None (faults w) = None /\
     _getChannelById this (Message.channel m) = None /\
     _replyWithDescription this m w =
     (Throw (TypeError "Cannot read property 'name' of undefined"),
      mkWorld (files w) (store w) (tl (faults w)) (clock w)
              (issued w ++ [sent s]) (outbox w) (stderr w))) \/
  (exists s c,
     Message.text m = VString s /\ hd None (faults w) = None /\
     _getChannelById this (Message.channel m) = Some c /\
     _replyWithDescription this m w =
     (Normal tt,
      mkWorld (files w) (store w) (tl (faults w)) (clock w)
              (issued w ++ [sent s])
              (outbox w ++ [{| Slack.to := Channel.name c;
                               Slack.body := VUndefined;
                               Slack.as_user := true |}])
              (stderr w))).
Proof.
  intros sent.
  destruct (Message.text m) as [| |x|s] eqn:Ht;
    try (left; unfold _replyWithDescription, bind, lift; rewrite Ht; cbn;
         split; [reflexivity|];
         split; [eexists; reflexivity | right; intros s; discriminate]).
  destruct (db this) as [path|] eqn:Hdb.
  2:{ left. unfold _replyWithDescription, bind, lift. rewrite Ht, Hdb. cbn.
      split; [reflexivity|].
      split; [eexists; reflexivity | now left]. }
  assert (Hconn : exists p, db this = Some p) by now exists path.
  destruct (faults w) as [|[e|] fs] eqn:Hf.
  - pose proof (reply_on_rows this m w s Ht Hconn) as E.
    rewrite Hf in E. specialize (E eq_refl). right; right.
    destruct (_getChannelById this (Message.channel m)) as [c|];
      [right; exists s, c | left; exists s]; repeat split; exact E.
  - right; left. exists s, e, fs. repeat split.
    apply (reply_on_error this m w s Ht Hconn e fs Hf).
  - pose proof (reply_on_rows this m w s Ht Hconn) as E.
    rewrite Hf in E. specialize (E eq_refl). right; right.
    destruct (_getChannelById this (Message.channel m)) as [c|];
      [right; exists s, c | left; exists s]; repeat split; exact E.
Qed.

End Handling.

Lemma grows_by_refl (n : nat) (w : SaganBot.world) : grows_by n w w.
Proof.
  unfold grows_by. repeat split. exists [], [], [].
  rewrite !app_nil_r. cbn. repeat split; lia.
Qed.

Lemma grows_by_trans (a b : nat) (w w1 w2 : SaganBot.world) :
  grows_by a w w1 -> grows_by b w1 w2 -> grows_by (a + b) w w2.
Proof.
  intros (Hf & Hs & Hc & st & ps & ls & Hi & Ho & He & Hn & Hp)
         (Hf' & Hs' & Hc' & st' & ps' & ls' & Hi' & Ho' & He' & Hn' & Hp').
  unfold grows_by. rewrite Hf', Hs', Hc'. repeat split; try assumption.
  exists (st ++ st')%list, (ps ++ ps')%list, (ls ++ ls')%list.
  rewrite Hi', Ho', He', Hi, Ho, He, <- !app_assoc, !length_app.
  repeat split; lia.
Qed.

Lemma reply_grows (this : SaganBot.bot) (m : Message.t) (w : SaganBot.world) :
  grows_by 1 w (snd (SaganBot._replyWithDescription this m w)).
Proof.
  destruct (reply_cases this m w)
    as [(E & _)|[(s & e & fs & _ & _ & E)|[(s & _ & _ & _ & E)
                                           |(s & c & _ & _ & _ & E)]]];
    rewrite E; [apply grows_by_refl| | |]; unfold grows_by; cbn;
    (split; [reflexivity|]); (split; [reflexivity|]);
    (split; [reflexivity|]).
  - eexists _, _, _. split; [reflexivity|].
    split; [symmetry; apply app_nil_r|]. split; [reflexivity|]. cbn; lia.
  - eexists _, _, _. split; [reflexivity|].
    split; [symmetry; apply app_nil_r|].
    split; [symmetry; apply app_nil_r|]. cbn; lia.
  - eexists _, _, _. split; [reflexivity|]. split; [reflexivity|].
    split; [symmetry; apply app_nil_r|]. cbn; lia.
Qed.

Lemma onMessage_grows
    (this : SaganBot.bot) (m : Message.t) (w : SaganBot.world) :
  grows_by 1 w (snd (SaganBot._onMessage this m w)).
Proof.
  destruct (onMessage_cases this m w) as [[E _]|(_ & _ & _ & _ & E)];
    rewrite E; [apply grows_by_refl | apply reply_grows].
Qed.

(** Handling a message never touches the files, the store or the clock.
    It sends at most one statement; it posts or logs only after a statement,
    and at most one of the two; the posts, the log and the statements that
    were there stay. *)
Theorem onMessage_grows_by_one
    (this : SaganBot.bot) (m : Message.t) (w : SaganBot.world) :
  grows_by 1 w (snd (SaganBot._onMessage this m w)).
Proof. exact (onMessage_grows this m w). Qed.

(** Whatever handling a message changes, the message passed the four
    filters: it is a chat message in a channel whose id starts with C, from
    another user than the bot, with a text (a string) that mentions the
    trigger. *)
Theorem onMessage_effect_needs_all_filters
    (this : SaganBot.bot) (m : Message.t) (w : SaganBot.world) :
  snd (SaganBot._onMessage this m w) <> w ->
  SaganBot._isChatMessage m = true /\
  SaganBot._isChannelConversation m = true /\
  SaganBot._isFromSaganBot this m = JS.Normal false /\
  SaganBot._isMentioningvRA this m = JS.Normal true /\
  exists s, Message.text m = JS.VString s.
Proof.
  intros H.
  destruct (onMessage_cases this m w) as [[E _]|(H1 & H2 & H3 & H4 & _)];
    [contradiction|].
  repeat split; try assumption.
  apply (mentioning_has_text this m true H4).
Qed.

Lemma onMessage_effect_needs_all_filters_witness :
  SaganBot._isChatMessage Scenario.vra_cloud = true /\
  SaganBot._isChannelConversation Scenario.vra_cloud = true /\
  SaganBot._isFromSaganBot Scenario.started Scenario.vra_cloud
  = JS.Normal false /\
  SaganBot._isMentioningvRA Scenario.started Scenario.vra_cloud
  = JS.Normal true /\
  exists s, Message.text Scenario.vra_cloud = JS.VString s.
Proof.
  apply (onMessage_effect_needs_all_filters Scenario.started
           Scenario.vra_cloud Scenario.used_world).
  intros E. apply (f_equal SaganBot.outbox) in E. discriminate E.
Defined.

(** A post made while handling a message answers a statement that the store
    took without error; it goes, as the bot user, to the name of a channel
    of the roster whose id is the channel id of the message, and its text
    is [undefined]. *)
Theorem onMessage_post_goes_to_message_channel
    (this : SaganBot.bot) (m : Message.t) (w : SaganBot.world)
    (p : Slack.post) :
  In p (SaganBot.outbox (snd (SaganBot._onMessage this m w))) ->
  In p (SaganBot.outbox w) \/
  (hd None (SaganBot.faults w) = None /\
   exists c,
     In c (SaganBot.channels this) /\
     Message.channel m = JS.VString (Channel.id c) /\
     p = {| Slack.to := Channel.name c; Slack.body := JS.VUndefined;
            Slack.as_user := true |}).
Proof.
  destruct (onMessage_cases this m w) as [[E _]|(_ & _ & _ & _ & E)];
    rewrite E; [now left|].
  destruct (reply_cases this m w)
    as [(E' & _)|[(s & e & fs & _ & _ & E')|[(s & _ & _ & _ & E')
                                             |(s & c & _ & Hf & Hc & E')]]];
    rewrite E'; cbn; try (now left).
  intros Hin. apply in_app_or in Hin. destruct Hin as [Hin|[<-|[]]];
    [now left|]. right. split; [exact Hf|]. exists c.
  destruct (getChannelById_spec this (Message.channel m))
    as [Hsound _].
  destruct (Hsound c Hc) as [Hin Hid]. now repeat split.
Qed.

Lemma onMessage_post_goes_to_message_channel_witness :
  In {| Slack.to := "general"; Slack.body := JS.VUndefined;
        Slack.as_user := true |} (SaganBot.outbox Scenario.used_world) \/
  (hd None (SaganBot.faults Scenario.used_world) = None /\
   exists c,
     In c (SaganBot.channels Scenario.started) /\
     Message.channel Scenario.vra_cloud = JS.VString (Channel.id c) /\
     {| Slack.to := "general"; Slack.body := JS.VUndefined;
        Slack.as_user := true |}
     = {| Slack.to := Channel.name c; Slack.body := JS.VUndefined;
          Slack.as_user := true |}).
Proof.
  apply (onMessage_post_goes_to_message_channel Scenario.started
           Scenario.vra_cloud Scenario.used_world).
  left. reflexivity.
Defined.

Lemma onMessage_without_raise
    (this : SaganBot.bot) (m : Message.t) (w : SaganBot.world) :
  SaganBot.user this <> None ->
  (forall b, Message.text m <> JS.VBool b) ->
  SaganBot._onMessage this m w = (JS.Normal tt, w) \/
  ((exists s, Message.text m = JS.VString s) /\
   SaganBot._onMessage this m w = SaganBot._replyWithDescription this m w).
Proof.
  intros Hu Ht. unfold SaganBot._onMessage, SaganBot.bind, SaganBot.lift.
  generalize (SaganBot._replyWithDescription this m). intros reply.
  destruct (SaganBot._isChatMessage m && SaganBot._isChannelConversation m)
    eqn:Hcc; [|now left].
  apply andb_true_iff in Hcc. destruct Hcc as [Hchat _].
  unfold SaganBot._isChatMessage in Hchat.
  apply andb_true_iff in Hchat. destruct Hchat as [_ Htext].
  unfold SaganBot._isFromSaganBot.
  destruct (SaganBot.user this) as [u|]; [|contradiction]. cbn.
  destruct (JS.strict_eq (Message.user m) (JS.VString (User.id u))); cbn;
    [now left|].
  unfold SaganBot._isMentioningvRA, JS.call_toLowerCase.
  destruct (Message.text m) as [| |b|s] eqn:Hx;
    try discriminate Htext; [now elim (Ht b)|].
  destruct (JS.indexOf (JS.toLowerCase s) "vra" >? -1); cbn.
  - right. split; [now exists s | reflexivity].
  - destruct (JS.indexOf (JS.toLowerCase s) (SaganBot.name this) >? -1); cbn.
    + right. split; [now exists s | reflexivity].
    + now left.
Qed.

(** With the identity resolved, the store connected, a text that is a
    string or is falsy (absent, null, false or empty) and a channel of the
    roster, handling a message returns normally, whatever the store
    answers. *)
Theorem onMessage_returns
    (this : SaganBot.bot) (m : Message.t) (w : SaganBot.world) (c : Channel.t) :
  SaganBot.user this <> None ->
  SaganBot.db this <> None ->
  JS.is_string (Message.text m) = true \/
  JS.Boolean (Message.text m) = false ->
  In c (SaganBot.channels this) ->
  Message.channel m = JS.VString (Channel.id c) ->
  fst (SaganBot._onMessage this m w) = JS.Normal tt.
Proof.
  intros Hu Hdb Ht Hin Hc.
  destruct (JS.Boolean (Message.text m)) eqn:Hb.
  2:{ rewrite onMessage_not_chat; [reflexivity|].
      unfold SaganBot._isChatMessage. rewrite Hb. apply andb_false_r. }
  destruct Ht as [Ht|Ht]; [|discriminate Ht].
  assert (Hnb : forall b, Message.text m <> JS.VBool b)
    by (intros b E; rewrite E in Ht; discriminate Ht).
  destruct (onMessage_without_raise this m w Hu Hnb) as [E|[[s Hs] E]];
    rewrite E; [reflexivity|].
  destruct (reply_cases this m w)
    as [(_ & _ & [Hn|Hn])|[(s' & e' & fs & _ & _ & E')
                          |[(s' & _ & _ & Hnone & _)
                           |(s' & c' & _ & _ & _ & E')]]].
  - contradiction.
  - now elim (Hn s).
  - now rewrite E'.
  - exfalso.
    destruct (getChannelById_spec this (Message.channel m))
      as [_ [Hall _]].
    apply (Hall Hnone c Hin). now rewrite Hc.
  - now rewrite E'.
Qed.

Lemma onMessage_returns_witness :
  fst (SaganBot._onMessage Scenario.started Scenario.vra_cloud
         Scenario.locked_world) = JS.Normal tt /\
  fst (SaganBot._onMessage Scenario.started
         {| Message.type := JS.VString "message";
            Message.text := JS.VBool false;
            Message.user := JS.VString "U0ALICE01";
            Message.channel := JS.VString "C024BE91L" |}
         Scenario.used_world) = JS.Normal tt.
Proof.
  split.
  - apply (onMessage_returns Scenario.started Scenario.vra_cloud
             Scenario.locked_world Scenario.general).
    + discriminate.
    + discriminate.
    + left. reflexivity.
    + left. reflexivity.
    + reflexivity.
  - apply (onMessage_returns Scenario.started _ Scenario.used_world
             Scenario.general).
    + discriminate.
    + discriminate.
    + right. reflexivity.
    + left. reflexivity.
    + reflexivity.
Defined.

(* ===================================================================== *)
(** ** The query term *)

Section QueryTerm.
Import JS.

Lemma letter_is_plain (c : ascii) :
  is_letter c = true ->
  is_space c = false /\ is_digit c = false /\ is_sign c = false /\
  (code c =? 48) = false /\ (code c =? 46) = false.
Proof.
  unfold is_letter, is_space, is_digit, is_sign. set (n := code c).
  intros H. apply orb_true_iff in H.
  assert (Hn : 65 <= n <= 90 \/ 97 <= n <= 122).
  { destruct H as [H|H]; apply andb_true_iff in H; destruct H as [H1 H2];
      apply Z.leb_le in H1; apply Z.leb_le in H2; [left|right]; lia. }
  clear H. repeat split.
  - destruct (Z.leb_spec 9 n), (Z.leb_spec n 13), (Z.eqb_spec n 32),
      (Z.eqb_spec n 160); cbn; try reflexivity; lia.
  - destruct (Z.leb_spec 48 n), (Z.leb_spec n 57); cbn; try reflexivity; lia.
  - destruct (Z.eqb_spec n 43), (Z.eqb_spec n 45); cbn; try reflexivity; lia.
  - destruct (Z.eqb_spec n 48); [lia | reflexivity].
  - destruct (Z.eqb_spec n 46); [lia | reflexivity].
Qed.

Lemma drop_spaces_letter (c : ascii) (l : list ascii) :
  is_letter c = true -> drop_spaces (c :: l) = c :: l.
Proof.
  intros H. cbn. now rewrite (proj1 (letter_is_plain c H)).
Qed.

Lemma trim_letters (l : list ascii) :
  forallb is_letter l = true -> trim l = l.
Proof.
  intros H. unfold trim.
  assert (Hd : forall k, forallb is_letter k = true -> drop_spaces k = k).
  { intros [|c k] Hk; [reflexivity|]. cbn in Hk.
    apply andb_true_iff in Hk. now apply drop_spaces_letter. }
  rewrite (Hd l H). rewrite Hd; [apply rev_involutive|].
  apply forallb_forall. intros c Hc. apply in_rev in Hc.
  revert c Hc. now apply forallb_forall.
Qed.

(** [+s] is NaN for every word but Infinity. *)
Lemma unary_plus_word (s : string) :
  is_word s -> s <> "Infinity" -> unary_plus s = NaN.
Proof.
  intros [Hne Hl] Hinf. unfold unary_plus.
  rewrite (trim_letters _ Hl).
  assert (Hs : string_of_list_ascii (list_ascii_of_string s) = s)
    by apply string_of_list_ascii_of_string.
  destruct (list_ascii_of_string s) as [|z [|x l]] eqn:E.
  - cbn in Hs. now elim Hne.
  - cbn in Hl. rewrite andb_true_r in Hl.
    cbn [is_numeric_literal].
    now rewrite (proj1 (proj2 (letter_is_plain z Hl))).
  - cbn [forallb] in Hl. apply andb_true_iff in Hl. destruct Hl as [Hz _].
    destruct (letter_is_plain z Hz) as (_ & Hd & Hsg & H48 & H46).
    cbn [is_numeric_literal]. rewrite H48, Hsg. cbn [andb].
    unfold is_unsigned_decimal. rewrite Hs.
    destruct (String.eqb_spec s "Infinity"); [contradiction|].
    cbn [skip_digits]. rewrite Hd, H46. cbn [starts_with_digit].
    now rewrite Hd.
Qed.

Lemma drop_app_length (pre s : string) :
  drop (String.length pre) (pre ++ s) = s.
Proof. induction pre as [|c pre IH]; [now destruct s | exact IH]. Qed.

End QueryTerm.

Lemma reply_issued
    (this : SaganBot.bot) (m : Message.t) (w : SaganBot.world) (s : string) :
  Message.text m = JS.VString s ->
  SaganBot.db this <> None ->
  SaganBot.issued (snd (SaganBot._replyWithDescription this m w))
  = (SaganBot.issued w
     ++ [SaganBot.SelectGlossary
           (Sqlite.ParamNumber (JS.unary_plus (JS.drop 4 s)))])%list.
Proof.
  intros Hs Hdb.
  destruct (reply_cases this m w)
    as [(_ & _ & [Hn|Hn])|[(s' & e' & fs & Hs' & _ & E)
                          |[(s' & Hs' & _ & _ & E)
                           |(s' & c' & Hs' & _ & _ & E)]]];
    try contradiction; try (now elim (Hn s));
    rewrite Hs in Hs'; injection Hs' as <-; now rewrite E.
Qed.

(** The reply step of a text message on a connected bot sends one
    statement, whatever the store answers: the glossary query, bound to the
    Number that unary plus makes of the text without its first four code
    units. *)
Theorem reply_binds_number_of_term
    (this : SaganBot.bot) (m : Message.t) (w : SaganBot.world) (s : string) :
  Message.text m = JS.VString s ->
  SaganBot.db this <> None ->
  SaganBot.issued (snd (SaganBot._replyWithDescription this m w))
  = (SaganBot.issued w
     ++ [SaganBot.SelectGlossary
           (Sqlite.ParamNumber (JS.unary_plus (JS.drop 4 s)))])%list.
Proof. exact (reply_issued this m w s). Qed.

Lemma reply_binds_number_of_term_witness :
  SaganBot.issued (snd (SaganBot._replyWithDescription Scenario.started
                          (Scenario.chat "U0ALICE01" "C024BE91L" "vra 42")
                          Scenario.locked_world))
  = [SaganBot.SelectGlossary
       (Sqlite.ParamNumber (JS.unary_plus (JS.drop 4 "vra 42")))].
Proof.
  apply (reply_binds_number_of_term Scenario.started
           (Scenario.chat "U0ALICE01" "C024BE91L" "vra 42")
           Scenario.locked_world "vra 42").
  - reflexivity.
  - discriminate.
Defined.

(** When the text is four code units followed by a word other than
    Infinity, the parameter of the query is NaN, and such a query selects
    no row of any store: no word of the glossary is ever found. *)
Theorem word_lookup_finds_nothing
    (this : SaganBot.bot) (m : Message.t) (w : SaganBot.world)
    (pre term : string) :
  Message.text m = JS.VString (pre ++ term) ->
  String.length pre = 4%nat ->
  is_word term -> term <> "Infinity" ->
  SaganBot.db this <> None ->
  SaganBot.issued (snd (SaganBot._replyWithDescription this m w))
  = (SaganBot.issued w
     ++ [SaganBot.SelectGlossary (Sqlite.ParamNumber JS.NaN)])%list /\
  forall d, Sqlite.select_glossary d (Sqlite.ParamNumber JS.NaN) = [].
Proof.
  intros Hs Hlen Hword Hinf Hdb. split; [|apply select_glossary_NaN].
  rewrite (reply_issued this m w _ Hs Hdb).
  rewrite <- Hlen, drop_app_length, (unary_plus_word term Hword Hinf).
  reflexivity.
Qed.

Lemma word_lookup_finds_nothing_witness :
  SaganBot.issued (snd (SaganBot._replyWithDescription Scenario.started
                          Scenario.vra_cloud Scenario.used_world))
  = [SaganBot.SelectGlossary (Sqlite.ParamNumber JS.NaN)] /\
  forall d, Sqlite.select_glossary d (Sqlite.ParamNumber JS.NaN) = [].
Proof.
  apply (word_lookup_finds_nothing Scenario.started Scenario.vra_cloud
           Scenario.used_world "vra " "cloud").
  - reflexivity.
  - reflexivity.
  - split; [discriminate | reflexivity].
  - discriminate.
  - discriminate.
Defined.

(** A text of at most four code units leaves the empty query term, and the
    parameter of the query is the Number of the empty string (zero), not
    NaN. *)
Theorem short_text_looks_up_zero
    (this : SaganBot.bot) (m : Message.t) (w : SaganBot.world) (s : string) :
  Message.text m = JS.VString s ->
  (String.length s <= 4)%nat ->
  SaganBot.db this <> None ->
  JS.call_slice_to_length (Message.text m) 4 = JS.Normal "" /\
  SaganBot.issued (snd (SaganBot._replyWithDescription this m w))
  = (SaganBot.issued w
     ++ [SaganBot.SelectGlossary (Sqlite.ParamNumber (JS.Numeric ""))])%list.
Proof.
  intros Hs Hlen Hdb. split.
  - rewrite Hs. cbn [JS.call_slice_to_length].
    now rewrite slice_4_length, (drop_all 4 s Hlen).
  - rewrite (reply_issued this m w s Hs Hdb).
    now rewrite (drop_all 4 s Hlen).
Qed.

Lemma short_text_looks_up_zero_witness :
  JS.call_slice_to_length (JS.VString "vRA") 4 = JS.Normal "" /\
  SaganBot.issued (snd (SaganBot._replyWithDescription Scenario.started
                          (Scenario.chat "U0ALICE01" "C024BE91L" "vRA")
                          Scenario.used_world))
  = [SaganBot.SelectGlossary (Sqlite.ParamNumber (JS.Numeric ""))].
Proof.
  apply (short_text_looks_up_zero Scenario.started
           (Scenario.chat "U0ALICE01" "C024BE91L" "vRA")
           Scenario.used_world "vRA").
  - reflexivity.
  - cbn. lia.
  - discriminate.
Defined.

(** The trigger is found anywhere in the text and in any case: a text that
    holds a spelling of "vra", whatever surrounds it, mentions vRA. *)
Theorem trigger_anywhere_any_case
    (this : SaganBot.bot) (m : Message.t) (pre v post : string) :
  Message.text m = JS.VString (pre ++ v ++ post) ->
  JS.toLowerCase v = "vra" ->
  SaganBot._isMentioningvRA this m = JS.Normal true.
Proof.
  intros Hs Hv. rewrite (isMentioningvRA_string this m _ Hs).
  assert (E : (JS.indexOf (JS.toLowerCase (pre ++ v ++ post)) "vra" >? -1)
              = true).
  { apply indexOf_contains. rewrite !toLowerCase_app, Hv.
    now exists (JS.toLowerCase pre), (JS.toLowerCase post). }
  now rewrite E.
Qed.

Lemma trigger_anywhere_any_case_witness :
  SaganBot._isMentioningvRA Scenario.started
    (Scenario.chat "U0ALICE01" "C024BE91L" "What is vRA?") = JS.Normal true.
Proof.
  apply (trigger_anywhere_any_case Scenario.started
           (Scenario.chat "U0ALICE01" "C024BE91L" "What is vRA?")
           "What is " "vRA" "?"); reflexivity.
Defined.

(* ===================================================================== *)
(** ** Activations *)

Section Activation.
Import JS SaganBot.

(** The bot that [_onStart] hands on. *)
Lemma onStart_found (this : bot) (w : world) :
  existsb (String.eqb (dbPath this)) (files w) = true ->
  _onStart this w =
  (_firstRunCheck
     (mkBot (name this) (dbPath this) (user (_loadBotUser this))
            (Some (dbPath this)) (users this) (channels this)) ;;;
   ret (mkBot (name this) (dbPath this) (user (_loadBotUser this))
              (Some (dbPath this)) (users this) (channels this))) w.
Proof.
  intros H. unfold _onStart. unfold bind at 1.
  rewrite connectDb_found by exact H. reflexivity.
Qed.

Lemma onStart_missing (this : bot) (w : world) :
  existsb (String.eqb (dbPath this)) (files w) = false ->
  _onStart this w =
  (Exit 1,
   mkWorld (files w) (store w) (faults w) (clock w) (issued w) (outbox w)
           (stderr w ++ [[missing_database (dbPath this)]])).
Proof.
  intros H. unfold _onStart, _connectDb, bind, existsSync.
  cbn [dbPath _loadBotUser]. rewrite H. reflexivity.
Qed.

Lemma snd_bind_ret {A B} (c : M A) (b : B) (w : world) :
  snd ((c ;;; ret b) w) = snd (c w).
Proof. unfold bind, ret. now destruct (c w) as [[a|e|n] w']. Qed.

Lemma other_info_insert (d : Sqlite.database) (val : string) :
  other_info (Sqlite.insert_lastrun d val) = other_info d.
Proof.
  unfold other_info, Sqlite.insert_lastrun. cbn.
  rewrite filter_app. cbn. apply app_nil_r.
Qed.

Lemma other_info_update (d : Sqlite.database) (val : string) :
  other_info (Sqlite.update_lastrun d val) = other_info d.
Proof.
  unfold other_info, Sqlite.update_lastrun. cbn [Sqlite.INFO].
  induction (Sqlite.INFO d) as [|r rows IH]; cbn [map filter];
    [reflexivity|].
  destruct (Sqlite.is_lastrun r) eqn:E.
  - unfold Sqlite.is_lastrun at 1. cbn [Sqlite.NAME].
    unfold Sqlite.is_lastrun in E. rewrite E. cbn [negb]. exact IH.
  - rewrite E. cbn [negb]. now rewrite IH.
Qed.

Lemma has_lastrun_update (d : Sqlite.database) (val : string) :
  has_lastrun d -> has_lastrun (Sqlite.update_lastrun d val).
Proof.
  intros (r & Hin & Hn). unfold has_lastrun, Sqlite.update_lastrun.
  cbn [Sqlite.INFO].
  exists {| Sqlite.NAME := Sqlite.NAME r; Sqlite.VAL := val |}.
  split; [|exact Hn]. apply in_map_iff. exists r. split; [|exact Hin].
  unfold Sqlite.is_lastrun. rewrite Hn. reflexivity.
Qed.

Lemma has_lastrun_insert (d : Sqlite.database) (val : string) :
  has_lastrun (Sqlite.insert_lastrun d val).
Proof.
  exists {| Sqlite.NAME := "lastrun"; Sqlite.VAL := val |}.
  split; [|reflexivity]. cbn. apply in_or_app. right. now left.
Qed.

(** What every path of [_firstRunCheck] keeps. *)
Lemma firstRunCheck_keeps (this : bot) (w : world) :
  let w' := snd (_firstRunCheck this w) in
  files w' = files w /\ clock w' = clock w /\
  Sqlite.GLOSSARY (store w') = Sqlite.GLOSSARY (store w) /\
  other_info (store w') = other_info (store w) /\
  (has_lastrun (store w) -> has_lastrun (store w') /\ outbox w' = outbox w) /\
  (outbox w' = outbox w \/
   exists c cs, channels this = c :: cs /\
     ~ has_lastrun (store w) /\ hd None (faults w) = None /\
     outbox w' = (outbox w ++ [{| Slack.to := Channel.name c;
                                  Slack.body := VString welcome;
                                  Slack.as_user := true |}])%list).
Proof.
  unfold _firstRunCheck.
  destruct (db this) as [path|];
    [|cbn; repeat split; auto].
  unfold db_get, db_run, _welcomeMessage, bind, send, read_store,
    write_store, Date_toJSON, postMessageToChannel, console_error, throw,
    lift, ret.
  destruct (faults w) as [|[e1|] fs] eqn:Hf;
    cbn -[Sqlite.select_lastrun Sqlite.insert_lastrun Sqlite.update_lastrun
          other_info];
    try (repeat split; auto; fail);
    (destruct (Sqlite.select_lastrun (store w)) as [r|] eqn:Hs;
     [ assert (Hl : has_lastrun (store w))
         by (destruct (Sqlite.select_lastrun (store w)) eqn:Hs';
             [ apply find_some in Hs'; destruct Hs' as [Hin Hn];
               eexists; split; [exact Hin | now apply String.eqb_eq]
             | discriminate Hs ])
     | assert (Hl : ~ has_lastrun (store w))
         by (now apply select_lastrun_None) ]);
    cbn -[Sqlite.insert_lastrun Sqlite.update_lastrun other_info].
  all: try (destruct (channels this) as [|c cs] eqn:Hc;
            cbn -[Sqlite.insert_lastrun Sqlite.update_lastrun other_info]).
  all: try (destruct fs as [|[e2|] fs'];
            cbn -[Sqlite.insert_lastrun Sqlite.update_lastrun other_info]).
  all: rewrite ?other_info_insert, ?other_info_update.
  all: repeat split; auto using has_lastrun_update; try contradiction.
  all: try (right; exists c, cs; repeat split; auto; fail).
Qed.

End Activation.

Section ActivationPaths.
Import JS SaganBot.

Variable this : bot.
Variable w : world.
Hypothesis found : existsb (String.eqb (dbPath this)) (files w) = true.

Lemma onStart_world :
  snd (_onStart this w) =
  snd (_firstRunCheck
         (mkBot (name this) (dbPath this) (user (_loadBotUser this))
                (Some (dbPath this)) (users this) (channels this)) w).
Proof. rewrite (onStart_found this w found). apply snd_bind_ret. Qed.

Lemma onStart_outcome :
  fst (_onStart this w) =
  match fst (_firstRunCheck
               (mkBot (name this) (dbPath this) (user (_loadBotUser this))
                      (Some (dbPath this)) (users this) (channels this)) w)
  with
  | Normal _ =>
      Normal (mkBot (name this) (dbPath this) (user (_loadBotUser this))
                    (Some (dbPath this)) (users this) (channels this))
  | Throw e => Throw e
  | Exit n => Exit n
  end.
Proof.
  rewrite (onStart_found this w found). unfold bind, ret.
  now destruct (_firstRunCheck _ w) as [[a|e|n] w'].
Qed.

(** The lastrun query fails. *)
Lemma firstRunCheck_query_error (b : bot) (e : string)
    (fs : list (option string)) :
  db b <> None ->
  faults w = Some e :: fs ->
  _firstRunCheck b w =
  (Normal tt,
   mkWorld (files w) (store w) fs (clock w) (issued w ++ [SelectLastrun])
           (outbox w) (stderr w ++ [["DATABASE ERROR:"; e]])).
Proof.
  intros Hdb Hf. unfold _firstRunCheck.
  destruct (db b); [|contradiction].
  unfold db_get, bind, send, console_error. rewrite Hf. reflexivity.
Qed.

(** No lastrun record and no channel to welcome. *)
Lemma firstRunCheck_no_channel (b : bot) :
  db b <> None ->
  hd None (faults w) = None ->
  Sqlite.select_lastrun (store w) = None ->
  channels b = [] ->
  _firstRunCheck b w =
  (Throw (TypeError "Cannot read property 'name' of undefined"),
   mkWorld (files w) (store w) (tl (faults w)) (clock w)
           (issued w ++ [SelectLastrun]) (outbox w) (stderr w)).
Proof.
  intros Hdb Hf Hs Hc. unfold _firstRunCheck.
  destruct (db b); [|contradiction].
  unfold db_get, db_run, _welcomeMessage, bind, send, read_store,
    Date_toJSON, throw, lift.
  rewrite Hc.
  assert (E : match faults w with e :: _ => e | [] => None end = None)
    by (destruct (faults w); [reflexivity | exact Hf]).
  rewrite E. cbn -[Sqlite.select_lastrun]. rewrite Hs. reflexivity.
Qed.

(** No lastrun record, and the insertion is refused. *)
Lemma firstRunCheck_insert_error (b : bot) (c : Channel.t)
    (cs : list Channel.t) (e : string) (fs : list (option string)) :
  db b <> None ->
  faults w = None :: Some e :: fs ->
  Sqlite.select_lastrun (store w) = None ->
  channels b = c :: cs ->
  snd (_firstRunCheck b w) =
  mkWorld (files w) (store w) fs (clock w)
          ((issued w ++ [SelectLastrun]) ++ [InsertLastrun (clock w)])
          (outbox w ++ [{| Slack.to := Channel.name c;
                           Slack.body := VString welcome;
                           Slack.as_user := true |}])
          (stderr w).
Proof.
  intros Hdb Hf Hs Hc. unfold _firstRunCheck.
  destruct (db b); [|contradiction].
  unfold db_get, db_run, _welcomeMessage, bind, send, read_store,
    Date_toJSON, postMessageToChannel, throw, lift.
  rewrite Hc, Hf. cbn -[Sqlite.select_lastrun]. rewrite Hs. reflexivity.
Qed.

End ActivationPaths.

(** [_onStart] returns a bot only when the file of the store exists, and
    the bot it returns is connected to the configured path, carries the
    identity that [_loadBotUser] resolves, and has the name and the roster
    it had. *)
Theorem onStart_returns_connected_bot
    (this b : SaganBot.bot) (w : SaganBot.world) :
  fst (SaganBot._onStart this w) = JS.Normal b ->
  existsb (String.eqb (SaganBot.dbPath this)) (SaganBot.files w) = true /\
  SaganBot.db b = Some (SaganBot.dbPath this) /\
  SaganBot.user b = SaganBot.user (SaganBot._loadBotUser this) /\
  SaganBot.name b = SaganBot.name this /\
  SaganBot.dbPath b = SaganBot.dbPath this /\
  SaganBot.users b = SaganBot.users this /\
  SaganBot.channels b = SaganBot.channels this.
Proof.
  destruct (existsb (String.eqb (SaganBot.dbPath this)) (SaganBot.files w))
    eqn:Hf.
  - rewrite (onStart_outcome this w Hf).
    destruct (fst (SaganBot._firstRunCheck _ w)); try discriminate.
    intros E. injection E as <-. now repeat split.
  - rewrite (onStart_missing this w Hf). discriminate.
Qed.

Lemma onStart_returns_connected_bot_witness :
  existsb (String.eqb (SaganBot.dbPath Scenario.constructed))
    (SaganBot.files Scenario.fresh_world) = true /\
  SaganBot.db Scenario.started = Some (SaganBot.dbPath Scenario.constructed) /\
  SaganBot.user Scenario.started
  = SaganBot.user (SaganBot._loadBotUser Scenario.constructed) /\
  SaganBot.name Scenario.started = SaganBot.name Scenario.constructed /\
  SaganBot.dbPath Scenario.started = SaganBot.dbPath Scenario.constructed /\
  SaganBot.users Scenario.started = SaganBot.users Scenario.constructed /\
  SaganBot.channels Scenario.started = SaganBot.channels Scenario.constructed.
Proof.
  apply (onStart_returns_connected_bot Scenario.constructed Scenario.started
           Scenario.fresh_world).
  reflexivity.
Defined.

(** When the store answers the lastrun query with an error, the activation
    logs it and goes on: the bot is started, nothing is posted, and neither
    an insertion nor an update is sent, so the store is as before. *)
Theorem startup_query_error_is_logged
    (this : SaganBot.bot) (w : SaganBot.world)
    (e : string) (fs : list (option string)) :
  existsb (String.eqb (SaganBot.dbPath this)) (SaganBot.files w) = true ->
  SaganBot.faults w = Some e :: fs ->
  (exists b, fst (SaganBot._onStart this w) = JS.Normal b) /\
  SaganBot.stderr (snd (SaganBot._onStart this w))
  = (SaganBot.stderr w ++ [["DATABASE ERROR:"; e]])%list /\
  SaganBot.outbox (snd (SaganBot._onStart this w)) = SaganBot.outbox w /\
  SaganBot.store (snd (SaganBot._onStart this w)) = SaganBot.store w /\
  SaganBot.issued (snd (SaganBot._onStart this w))
  = (SaganBot.issued w ++ [SaganBot.SelectLastrun])%list.
Proof.
  intros Hfile Hf.
  rewrite (onStart_outcome this w Hfile), (onStart_world this w Hfile).
  rewrite (firstRunCheck_query_error w _ e fs); [|discriminate | exact Hf].
  cbn. split; [eexists; reflexivity | now repeat split].
Qed.

Lemma startup_query_error_is_logged_witness :
  (exists b, fst (SaganBot._onStart Scenario.constructed
                    Scenario.locked_world) = JS.Normal b) /\
  SaganBot.stderr (snd (SaganBot._onStart Scenario.constructed
                          Scenario.locked_world))
  = [["DATABASE ERROR:"; "SQLITE_BUSY: database is locked"]] /\
  SaganBot.outbox (snd (SaganBot._onStart Scenario.constructed
                          Scenario.locked_world)) = [].
Proof.
  destruct (startup_query_error_is_logged Scenario.constructed
              Scenario.locked_world "SQLITE_BUSY: database is locked" [])
    as (Hb & He & Ho & _).
  - reflexivity.
  - reflexivity.
  - split; [exact Hb|]. split; [exact He | exact Ho].
Defined.

(** A first activation in a team without a channel: reading the name of
    the first channel raises a TypeError; nothing is posted, the insertion
    is not sent, and the store still has no lastrun record. *)
Theorem first_run_without_channel_raises
    (this : SaganBot.bot) (w : SaganBot.world) :
  existsb (String.eqb (SaganBot.dbPath this)) (SaganBot.files w) = true ->
  hd None (SaganBot.faults w) = None ->
  ~ has_lastrun (SaganBot.store w) ->
  SaganBot.channels this = [] ->
  fst (SaganBot._onStart this w)
  = JS.Throw (JS.TypeError "Cannot read property 'name' of undefined") /\
  SaganBot.outbox (snd (SaganBot._onStart this w)) = SaganBot.outbox w /\
  SaganBot.store (snd (SaganBot._onStart this w)) = SaganBot.store w /\
  SaganBot.issued (snd (SaganBot._onStart this w))
  = (SaganBot.issued w ++ [SaganBot.SelectLastrun])%list.
Proof.
  intros Hfile Hf Hl Hc. apply select_lastrun_None in Hl.
  rewrite (onStart_outcome this w Hfile), (onStart_world this w Hfile).
  rewrite (firstRunCheck_no_channel w _);
    [|discriminate | exact Hf | exact Hl | exact Hc].
  now repeat split.
Qed.

Lemma first_run_without_channel_raises_witness :
  fst (SaganBot._onStart Scenario.channelless Scenario.fresh_world)
  = JS.Throw (JS.TypeError "Cannot read property 'name' of undefined") /\
  SaganBot.store (snd (SaganBot._onStart Scenario.channelless
                         Scenario.fresh_world)) = Scenario.fresh_store.
Proof.
  destruct (first_run_without_channel_raises Scenario.channelless
              Scenario.fresh_world) as (Ht & _ & Hs & _).
  - reflexivity.
  - reflexivity.
  - intros (r & [] & _).
  - reflexivity.
  - split; [exact Ht | exact Hs].
Defined.

Lemma onStart_fresh_world
    (this : SaganBot.bot) (w : SaganBot.world)
    (c : Channel.t) (cs : list Channel.t) :
  existsb (String.eqb (SaganBot.dbPath this)) (SaganBot.files w) = true ->
  store_sound w ->
  ~ has_lastrun (SaganBot.store w) ->
  SaganBot.channels this = c :: cs ->
  snd (SaganBot._onStart this w) =
  SaganBot.mkWorld (SaganBot.files w)
    (Sqlite.insert_lastrun (SaganBot.store w) (SaganBot.clock w))
    (tl (tl (SaganBot.faults w))) (SaganBot.clock w)
    ((SaganBot.issued w ++ [SaganBot.SelectLastrun])
     ++ [SaganBot.InsertLastrun (SaganBot.clock w)])
    (SaganBot.outbox w ++ [{| Slack.to := Channel.name c;
                              Slack.body := JS.VString SaganBot.welcome;
                              Slack.as_user := true |}])
    (SaganBot.stderr w).
Proof.
  intros Hfile Hsound Hl Hc. apply select_lastrun_None in Hl.
  rewrite (onStart_world this w Hfile).
  match goal with
  | |- context [SaganBot._firstRunCheck ?b w] =>
      rewrite (firstRunCheck_fresh b w
                 (ex_intro _ (SaganBot.dbPath this) eq_refl)
                 Hsound c cs Hc Hl)
  end.
  reflexivity.
Qed.

(** When the insertion of the lastrun record is refused, the welcome
    message has been posted already and the store still has no lastrun
    record: the next activation on that store posts the welcome again. *)
Theorem refused_insertion_repeats_welcome
    (this : SaganBot.bot) (w w2 : SaganBot.world)
    (c : Channel.t) (cs : list Channel.t)
    (e : string) (fs : list (option string)) :
  existsb (String.eqb (SaganBot.dbPath this)) (SaganBot.files w) = true ->
  SaganBot.faults w = None :: Some e :: fs ->
  ~ has_lastrun (SaganBot.store w) ->
  SaganBot.channels this = c :: cs ->
  existsb (String.eqb (SaganBot.dbPath this)) (SaganBot.files w2) = true ->
  store_sound w2 ->
  SaganBot.store w2 = SaganBot.store (snd (SaganBot._onStart this w)) ->
  SaganBot.outbox (snd (SaganBot._onStart this w))
  = (SaganBot.outbox w
     ++ [{| Slack.to := Channel.name c;
            Slack.body := JS.VString SaganBot.welcome;
            Slack.as_user := true |}])%list /\
  SaganBot.store (snd (SaganBot._onStart this w)) = SaganBot.store w /\
  SaganBot.outbox (snd (SaganBot._onStart this w2))
  = (SaganBot.outbox w2
     ++ [{| Slack.to := Channel.name c;
            Slack.body := JS.VString SaganBot.welcome;
            Slack.as_user := true |}])%list.
Proof.
  intros Hfile Hf Hl Hc Hfile2 Hsound2 Hstore.
  pose proof Hl as Hnone. apply select_lastrun_None in Hnone.
  pose proof (firstRunCheck_insert_error w
                (SaganBot.mkBot (SaganBot.name this) (SaganBot.dbPath this)
                   (SaganBot.user (SaganBot._loadBotUser this))
                   (Some (SaganBot.dbPath this)) (SaganBot.users this)
                   (SaganBot.channels this))
                c cs e fs) as E.
  rewrite <- (onStart_world this w Hfile) in E.
  assert (Hdb : Some (SaganBot.dbPath this) <> None) by discriminate.
  specialize (E Hdb Hf Hnone Hc).
  rewrite E in Hstore |- *. cbn in Hstore |- *.
  split; [reflexivity|]. split; [reflexivity|].
  rewrite (onStart_fresh_world this w2 c cs Hfile2 Hsound2); [reflexivity| |exact Hc].
  now rewrite Hstore.
Qed.

Lemma refused_insertion_repeats_welcome_witness :
  SaganBot.outbox (snd (SaganBot._onStart Scenario.constructed
                          Scenario.readonly_world))
  = [{| Slack.to := "general"; Slack.body := JS.VString SaganBot.welcome;
        Slack.as_user := true |}] /\
  SaganBot.store (snd (SaganBot._onStart Scenario.constructed
                         Scenario.readonly_world)) = Scenario.fresh_store /\
  SaganBot.outbox (snd (SaganBot._onStart Scenario.constructed
                          Scenario.fresh_world))
  = [{| Slack.to := "general"; Slack.body := JS.VString SaganBot.welcome;
        Slack.as_user := true |}].
Proof.
  apply (refused_insertion_repeats_welcome Scenario.constructed
           Scenario.readonly_world Scenario.fresh_world
           Scenario.general [Scenario.random]
           "SQLITE_READONLY: attempt to write a readonly database" []).
  - reflexivity.
  - reflexivity.
  - intros (r & [] & _).
  - reflexivity.
  - reflexivity.
  - constructor.
  - reflexivity.
Defined.

Lemma onStart_keeps (this : SaganBot.bot) (w : SaganBot.world) :
  SaganBot.files (snd (SaganBot._onStart this w)) = SaganBot.files w /\
  SaganBot.clock (snd (SaganBot._onStart this w)) = SaganBot.clock w /\
  Sqlite.GLOSSARY (SaganBot.store (snd (SaganBot._onStart this w)))
  = Sqlite.GLOSSARY (SaganBot.store w) /\
  other_info (SaganBot.store (snd (SaganBot._onStart this w)))
  = other_info (SaganBot.store w) /\
  (has_lastrun (SaganBot.store w) ->
   has_lastrun (SaganBot.store (snd (SaganBot._onStart this w))) /\
   SaganBot.outbox (snd (SaganBot._onStart this w)) = SaganBot.outbox w) /\
  (SaganBot.outbox (snd (SaganBot._onStart this w)) = SaganBot.outbox w \/
   exists c cs, SaganBot.channels this = c :: cs /\
     ~ has_lastrun (SaganBot.store w) /\
     hd None (SaganBot.faults w) = None /\
     SaganBot.outbox (snd (SaganBot._onStart this w))
     = (SaganBot.outbox w
        ++ [{| Slack.to := Channel.name c;
               Slack.body := JS.VString SaganBot.welcome;
               Slack.as_user := true |}])%list).
Proof.
  destruct (existsb (String.eqb (SaganBot.dbPath this)) (SaganBot.files w))
    eqn:Hf.
  - rewrite (onStart_world this w Hf).
    match goal with
    | |- context [SaganBot._firstRunCheck ?b w] =>
        exact (firstRunCheck_keeps b w)
    end.
  - rewrite (onStart_missing this w Hf). cbn. repeat split; auto.
Qed.

(** No activation changes the glossary or the rows of INFO other than the
    lastrun record, and none removes a lastrun record, whatever the store
    answers. *)
Theorem onStart_keeps_glossary (this : SaganBot.bot) (w : SaganBot.world) :
  Sqlite.GLOSSARY (SaganBot.store (snd (SaganBot._onStart this w)))
  = Sqlite.GLOSSARY (SaganBot.store w) /\
  other_info (SaganBot.store (snd (SaganBot._onStart this w)))
  = other_info (SaganBot.store w) /\
  (has_lastrun (SaganBot.store w) ->
   has_lastrun (SaganBot.store (snd (SaganBot._onStart this w)))).
Proof.
  destruct (onStart_keeps this w) as (_ & _ & Hg & Ho & Hl & _).
  split; [exact Hg|]. split; [exact Ho|]. intros H. now apply Hl.
Qed.

(** The only post of an activation is the welcome to the first channel of
    the roster, and it is made only when the store has no lastrun record
    and takes the lastrun query without error: with a lastrun record in the
    store, no activation posts, whatever the store answers. *)
Theorem onStart_posts_only_first_welcome
    (this : SaganBot.bot) (w : SaganBot.world) :
  (has_lastrun (SaganBot.store w) ->
   SaganBot.outbox (snd (SaganBot._onStart this w)) = SaganBot.outbox w) /\
  (SaganBot.outbox (snd (SaganBot._onStart this w)) = SaganBot.outbox w \/
   exists c cs, SaganBot.channels this = c :: cs /\
     ~ has_lastrun (SaganBot.store w) /\
     hd None (SaganBot.faults w) = None /\
     SaganBot.outbox (snd (SaganBot._onStart this w))
     = (SaganBot.outbox w
        ++ [{| Slack.to := Channel.name c;
               Slack.body := JS.VString SaganBot.welcome;
               Slack.as_user := true |}])%list).
Proof.
  destruct (onStart_keeps this w) as (_ & _ & _ & _ & Hl & Hp).
  split; [|exact Hp]. intros H. now apply Hl.
Qed.

(** An activation that finds the file, a store that answers, and a channel
    in the roster leaves a lastrun record in the store: together with the
    property above, the activations that follow post no welcome. *)
Theorem activation_records_lastrun
    (this : SaganBot.bot) (w : SaganBot.world) :
  existsb (String.eqb (SaganBot.dbPath this)) (SaganBot.files w) = true ->
  store_sound w ->
  SaganBot.channels this <> [] ->
  has_lastrun (SaganBot.store (snd (SaganBot._onStart this w))).
Proof.
  intros Hfile Hsound Hc.
  destruct (Sqlite.select_lastrun (SaganBot.store w)) as [r|] eqn:Hs.
  - rewrite (onStart_world this w Hfile).
    match goal with
    | |- context [SaganBot._firstRunCheck ?b w] =>
        rewrite (firstRunCheck_again b w
                   (ex_intro _ (SaganBot.dbPath this) eq_refl) Hsound r Hs)
    end.
    cbn. apply has_lastrun_update. apply find_some in Hs.
    destruct Hs as [Hin Hn]. exists r. split; [exact Hin|].
    now apply String.eqb_eq.
  - destruct (SaganBot.channels this) as [|c cs] eqn:Hcs; [contradiction|].
    apply select_lastrun_None in Hs.
    rewrite (onStart_fresh_world this w c cs Hfile Hsound Hs Hcs).
    cbn. apply has_lastrun_insert.
Qed.

Lemma activation_records_lastrun_witness :
  has_lastrun (SaganBot.store (snd (SaganBot._onStart Scenario.constructed
                                      Scenario.fresh_world))).
Proof.
  apply (activation_records_lastrun Scenario.constructed Scenario.fresh_world).
  - reflexivity.
  - constructor.
  - discriminate.
Defined.

(* ===================================================================== *)
(** ** A run of the bot *)

Lemma grows_by_mono (a b : nat) (w w' : SaganBot.world) :
  (a <= b)%nat -> grows_by a w w' -> grows_by b w w'.
Proof.
  intros Hab (Hf & Hs & Hc & st & ps & ls & Hi & Ho & He & Hn & Hp).
  unfold grows_by. repeat split; try assumption.
  exists st, ps, ls. repeat split; try assumption; lia.
Qed.

Lemma serve_grows (this : SaganBot.bot) (events : list Message.t) :
  forall w, grows_by (List.length events) w
              (snd (SaganBot.serve this events w)).
Proof.
  induction events as [|m rest IH]; intros w; cbn [SaganBot.serve List.length].
  - apply grows_by_refl.
  - pose proof (onMessage_grows this m w) as G. unfold SaganBot.bind.
    destruct (SaganBot._onMessage this m w) as [[[]|e|n] w1]; cbn in G |- *.
    + change (S (List.length rest)) with (1 + List.length rest)%nat.
      apply (grows_by_trans _ _ _ w1); [exact G | apply IH].
    + apply (grows_by_mono 1); [lia | exact G].
    + apply (grows_by_mono 1); [lia | exact G].
Qed.

(** Serving any sequence of events leaves the files, the store and the
    clock as they are; it sends at most one statement per event, and posts
    or logs at most once per statement sent. *)
Theorem serve_grows_by_events
    (this : SaganBot.bot) (events : list Message.t) (w : SaganBot.world) :
  grows_by (List.length events) w (snd (SaganBot.serve this events w)).
Proof. exact (serve_grows this events w). Qed.

(** A whole run, whatever the events and whatever the store answers, never
    changes the glossary or the rows of INFO other than the lastrun record,
    and posts at most one message more than there are events. *)
Theorem run_keeps_glossary
    (this : SaganBot.bot) (events : list Message.t) (w : SaganBot.world) :
  Sqlite.GLOSSARY (SaganBot.store (snd (SaganBot.run this events w)))
  = Sqlite.GLOSSARY (SaganBot.store w) /\
  other_info (SaganBot.store (snd (SaganBot.run this events w)))
  = other_info (SaganBot.store w) /\
  (List.length (SaganBot.outbox (snd (SaganBot.run this events w)))
   <= List.length (SaganBot.outbox w) + 1 + List.length events)%nat.
Proof.
  destruct (onStart_keeps this w) as (_ & _ & Hg & Ho & _ & Hp).
  assert (Hlen : (List.length (SaganBot.outbox (snd (SaganBot._onStart this w)))
                  <= List.length (SaganBot.outbox w) + 1)%nat).
  { destruct Hp as [E|(c & cs & _ & _ & _ & E)]; rewrite E;
      [|rewrite length_app; cbn]; lia. }
  unfold SaganBot.run, SaganBot.bind.
  destruct (SaganBot._onStart this w) as [[b|e|n] w1]; cbn in Hg, Ho, Hlen |- *;
    try (repeat split; [exact Hg | exact Ho | lia]).
  destruct (serve_grows b events w1)
    as (_ & Hs & _ & st & ps & ls & _ & Hout & _ & Hn & Hps).
  rewrite Hs, Hout, length_app. repeat split; [exact Hg | exact Ho | lia].
Qed.

(** When the file of the store is missing, a run ends with exit code 1
    before any event is handled: whatever the events, nothing is posted and
    no statement is sent. *)
Theorem run_without_store_serves_nothing
    (this : SaganBot.bot) (events : list Message.t) (w : SaganBot.world) :
  existsb (String.eqb (SaganBot.dbPath this)) (SaganBot.files w) = false ->
  fst (SaganBot.run this events w) = JS.Exit 1 /\
  SaganBot.outbox (snd (SaganBot.run this events w)) = SaganBot.outbox w /\
  SaganBot.issued (snd (SaganBot.run this events w)) = SaganBot.issued w /\
  SaganBot.store (snd (SaganBot.run this events w)) = SaganBot.store w.
Proof.
  intros H. unfold SaganBot.run, SaganBot.bind.
  rewrite (onStart_missing this w H). now repeat split.
Qed.

Lemma run_without_store_serves_nothing_witness :
  fst (SaganBot.run Scenario.constructed
         [Scenario.vra_cloud; Scenario.vra_cloud]
         (Scenario.world_of [] Scenario.fresh_store [])) = JS.Exit 1 /\
  SaganBot.outbox (snd (SaganBot.run Scenario.constructed
                          [Scenario.vra_cloud; Scenario.vra_cloud]
                          (Scenario.world_of [] Scenario.fresh_store [])))
  = [].
Proof.
  destruct (run_without_store_serves_nothing Scenario.constructed
              [Scenario.vra_cloud; Scenario.vra_cloud]
              (Scenario.world_of [] Scenario.fresh_store []))
    as (He & Ho & _).
  - reflexivity.
  - split; [exact He | exact Ho].
Defined.
